(** * readme-update-coding-stats: the repository fetcher [src/fetchers/repo.js]

    A shallow embedding of [filterDuplicateCommits],
    [totalAdditionsAndDeletionsByUser], [fetchRepoCommits], [fetchRepoMeta]
    and [fetchRepo], together with the fragment of JavaScript they run on
    (dynamic values, property access, truthiness, [JSON.stringify],
    [JSON.parse], [Set], object spread), and the properties the
    specification states about them.

    Conventions of the embedding.
    - A JavaScript value is a [value].  Numbers are the doubles of integer
      value ([Z]) and [NaN]: the numeric fields of the responses are GraphQL
      [Int]s.  Addition rounds as doubles do ([round_double]); it is exact
      where the sum stays within 2^53.
    - A string is a [string] of code units below 256.
    - An object is the list of its own enumerable properties in creation
      order, which is the order [JSON.stringify] and spread enumerate them
      in.  Keys are expected to be pairwise distinct (as in every object
      that [JSON.parse] returns) and not to be canonical array indices.
    - A thrown exception or a rejected promise is [Throw e]. *)

From Stdlib Require Import String Ascii List ZArith Bool Lia Decimal
  DecimalString DecimalZ Permutation.
Import ListNotations.

Local Open Scope string_scope.
Local Open Scope list_scope.
Local Open Scope Z_scope.

(** ** Exceptions and results *)

Inductive error : Type :=
| TypeError                         (* property read on null/undefined, call of a non-function *)
| SyntaxError                       (* JSON.parse *)
| Error (message : string)          (* new Error(message) *)
| MissingParamError (missedParams : list string) (secondaryMessage : string)
| Rejected (reason : string).       (* the retryer gave up *)

Inductive result (A : Type) : Type :=
| Ok (a : A)
| Throw (e : error).
Arguments Ok {A} a.
Arguments Throw {A} e.

Definition rbind {A B} (r : result A) (k : A -> result B) : result B :=
  match r with
  | Ok a => k a
  | Throw e => Throw e
  end.

Declare Scope result_scope.
Delimit Scope result_scope with result.
Notation "'let?' x ':=' r 'in' k" := (rbind r (fun x => k))
  (at level 10, x name, r at level 100, k at level 200) : result_scope.
Local Open Scope result_scope.

Fixpoint mapM {A B} (f : A -> result B) (l : list A) : result (list B) :=
  match l with
  | [] => Ok []
  | x :: t => let? y := f x in let? ys := mapM f t in Ok (y :: ys)
  end.

(** ** JavaScript values *)

Module JS.

#[local] Unset Elimination Schemes.
Inductive value : Type :=
| VUndef
| VNull
| VBool (b : bool)
| VNum (n : Z)
| VNaN
| VStr (s : string)
| VArr (elems : list value)
| VObj (props : list (string * value)).
#[local] Set Elimination Schemes.

(** The induction principle that reaches inside arrays and objects. *)
Section ValueInd.
Variable P : value -> Prop.
Hypothesis HUndef : P VUndef.
Hypothesis HNull : P VNull.
Hypothesis HBool : forall b, P (VBool b).
Hypothesis HNum : forall n, P (VNum n).
Hypothesis HNaN : P VNaN.
Hypothesis HStr : forall s, P (VStr s).
Hypothesis HArr : forall l, Forall P l -> P (VArr l).
Hypothesis HObj : forall ps, Forall (fun kv => P (snd kv)) ps -> P (VObj ps).

Fixpoint value_deep_ind (v : value) : P v :=
  match v with
  | VUndef => HUndef
  | VNull => HNull
  | VBool b => HBool b
  | VNum n => HNum n
  | VNaN => HNaN
  | VStr s => HStr s
  | VArr l =>
      HArr l ((fix elems (l : list value) : Forall P l :=
                 match l with
                 | [] => Forall_nil _
                 | x :: t => Forall_cons x (value_deep_ind x) (elems t)
                 end) l)
  | VObj ps =>
      HObj ps ((fix members (ps : list (string * value))
                  : Forall (fun kv => P (snd kv)) ps :=
                  match ps with
                  | [] => Forall_nil _
                  | kv :: t =>
                      Forall_cons kv (value_deep_ind (snd kv)) (members t)
                  end) ps)
  end.
End ValueInd.

(** Structural equality of two values, as a boolean (this is equality of
    content, not the operator [===]). *)
Fixpoint value_eqb (a b : value) : bool :=
  match a, b with
  | VUndef, VUndef => true
  | VNull, VNull => true
  | VBool x, VBool y => Bool.eqb x y
  | VNum x, VNum y => Z.eqb x y
  | VNaN, VNaN => true
  | VStr x, VStr y => String.eqb x y
  | VArr l, VArr m =>
      (fix go (l m : list value) : bool :=
         match l, m with
         | [], [] => true
         | x :: l', y :: m' => value_eqb x y && go l' m'
         | _, _ => false
         end) l m
  | VObj p, VObj q =>
      (fix go (p q : list (string * value)) : bool :=
         match p, q with
         | [], [] => true
         | (k, x) :: p', (k', y) :: q' =>
             String.eqb k k' && value_eqb x y && go p' q'
         | _, _ => false
         end) p q
  | _, _ => false
  end.

(** [ToBoolean]. *)
Definition truthy (v : value) : bool :=
  match v with
  | VUndef | VNull | VNaN => false
  | VBool b => b
  | VNum n => negb (n =? 0)
  | VStr s => negb (s =? "")%string
  | VArr _ | VObj _ => true
  end.

(** [a && b] and [a || b] return one of their operands. *)
Definition js_and (a b : value) : value := if truthy a then b else a.
Definition js_or (a b : value) : value := if truthy a then a else b.

(** [v === null]. *)
Definition is_null (v : value) : bool :=
  match v with VNull => true | _ => false end.

(** [v === n] for a number literal [n]. *)
Definition strict_eq_num (v : value) (n : Z) : bool :=
  match v with VNum m => m =? n | _ => false end.

Fixpoint lookup (k : string) (ps : list (string * value)) : option value :=
  match ps with
  | [] => None
  | (k', v) :: t => if (k =? k')%string then Some v else lookup k t
  end.

(** [v.k] for the property names the program reads ([data], [user],
    [organization], [repository], [isPrivate], [stargazers], [totalCount],
    [refs], [nodes], [length], [target], [history], [author], [login],
    [additions], [deletions], [id]).  Reading a property of [undefined] or
    [null] throws; a missing property is [undefined]; of the inherited
    properties only [length] of arrays and strings bears one of these
    names. *)
Definition getprop (v : value) (k : string) : result value :=
  match v with
  | VUndef | VNull => Throw TypeError
  | VObj ps => Ok (match lookup k ps with Some x => x | None => VUndef end)
  | VArr l =>
      Ok (if (k =? "length")%string then VNum (Z.of_nat (List.length l))
          else VUndef)
  | VStr s =>
      Ok (if (k =? "length")%string then VNum (Z.of_nat (String.length s))
          else VUndef)
  | VBool _ | VNum _ | VNaN => Ok VUndef
  end.

(** *** Strings *)

#[local] Open Scope string_scope.

(** [String.prototype.toLowerCase] on code units below 256: the ASCII
    capitals and the Latin-1 capitals (C0..DE except D7) move up by 32. *)
Definition lower_char (c : ascii) : ascii :=
  let n := N_of_ascii c in
  if ((65 <=? n) && (n <=? 90))%N then ascii_of_N (n + 32)
  else if ((192 <=? n) && (n <=? 222) && negb (n =? 215))%N
       then ascii_of_N (n + 32)
  else c.

Fixpoint lower_string (s : string) : string :=
  match s with
  | EmptyString => EmptyString
  | String c t => String (lower_char c) (lower_string t)
  end.

(** [v.toLowerCase()]: only strings have the method. *)
Definition toLowerCase (v : value) : result string :=
  match v with
  | VStr s => Ok (lower_string s)
  | VUndef | VNull | VBool _ | VNum _ | VNaN | VArr _ | VObj _ =>
      Throw TypeError
  end.

(** [Number::toString] on integers (exact below 10^21). *)
Definition string_of_Z (n : Z) : string :=
  NilZero.string_of_int (Z.to_int n).

Definition dquote : ascii := "034"%char.
Definition backslash : ascii := "092"%char.

Definition hex_digit (n : N) : ascii :=
  if (n <? 10)%N then ascii_of_N (48 + n) else ascii_of_N (87 + n).

(** One code unit of [QuoteJSONString]. *)
Definition escape_char (c : ascii) : string :=
  let n := N_of_ascii c in
  if (n =? 34)%N then String backslash (String dquote EmptyString)
  else if (n =? 92)%N then String backslash (String backslash EmptyString)
  else if (n =? 8)%N then String backslash "b"
  else if (n =? 12)%N then String backslash "f"
  else if (n =? 10)%N then String backslash "n"
  else if (n =? 13)%N then String backslash "r"
  else if (n =? 9)%N then String backslash "t"
  else if (n <? 32)%N then
    String backslash
      (String "u" (String "0" (String "0"
         (String (hex_digit (n / 16)) (String (hex_digit (n mod 16))
            EmptyString)))))
  else String c EmptyString.

Fixpoint escape (s : string) : string :=
  match s with
  | EmptyString => EmptyString
  | String c t => escape_char c ++ escape t
  end.

Definition QuoteJSONString (s : string) : string :=
  String dquote (escape s ++ String dquote EmptyString).

Fixpoint join_comma (l : list string) : string :=
  match l with
  | [] => EmptyString
  | [x] => x
  | x :: t => x ++ String "," (join_comma t)
  end.

(** *** [JSON.stringify] *)

(** [SerializeJSONProperty]: [None] is [undefined].  Inside an array
    [undefined] prints as [null]; inside an object a property whose value is
    [undefined] is left out. *)
Fixpoint SerializeJSONProperty (v : value) : option string :=
  match v with
  | VUndef => None
  | VNull => Some "null"
  | VBool true => Some "true"
  | VBool false => Some "false"
  | VNum n => Some (string_of_Z n)
  | VNaN => Some "null"
  | VStr s => Some (QuoteJSONString s)
  | VArr l =>
      Some (String "["
              (join_comma
                 (map (fun x => match SerializeJSONProperty x with
                                | Some t => t
                                | None => "null"
                                end) l)
               ++ "]"))
  | VObj ps =>
      Some (String "{"
              (join_comma
                 (flat_map
                    (fun kv => match SerializeJSONProperty (snd kv) with
                               | Some t =>
                                   [QuoteJSONString (fst kv) ++ String ":" t]
                               | None => []
                               end) ps)
               ++ "}"))
  end.

Definition JSON_stringify (v : value) : option string :=
  SerializeJSONProperty v.

(** *** [JSON.parse]

    The program hands [JSON.parse] nothing but texts that [JSON.stringify]
    produced, so the parser reads the compact grammar of those texts: no
    white space between tokens, integers without fraction or exponent. *)

Definition digit_of_char (c : ascii) : option (uint -> uint) :=
  let n := N_of_ascii c in
  if (n =? 48)%N then Some D0 else if (n =? 49)%N then Some D1
  else if (n =? 50)%N then Some D2 else if (n =? 51)%N then Some D3
  else if (n =? 52)%N then Some D4 else if (n =? 53)%N then Some D5
  else if (n =? 54)%N then Some D6 else if (n =? 55)%N then Some D7
  else if (n =? 56)%N then Some D8 else if (n =? 57)%N then Some D9
  else None.

(** The longest prefix of digits, and what follows it. *)
Fixpoint parse_digits (s : string) : uint * string :=
  match s with
  | EmptyString => (Nil, EmptyString)
  | String c t =>
      match digit_of_char c with
      | Some d => let (u, r) := parse_digits t in (d u, r)
      | None => (Nil, s)
      end
  end.

Definition parse_number (s : string) : option (value * string) :=
  match s with
  | EmptyString => None
  | String c t =>
      if Ascii.eqb c "-" then
        match parse_digits t with
        | (Nil, _) => None
        | (u, r) => Some (VNum (Z.of_int (Neg u)), r)
        end
      else
        match parse_digits s with
        | (Nil, _) => None
        | (u, r) => Some (VNum (Z.of_int (Pos u)), r)
        end
  end.

Definition hex_value (c : ascii) : option N :=
  let n := N_of_ascii c in
  if ((48 <=? n) && (n <=? 57))%N then Some (n - 48)%N
  else if ((97 <=? n) && (n <=? 102))%N then Some (n - 87)%N
  else if ((65 <=? n) && (n <=? 70))%N then Some (n - 55)%N
  else None.

(** The code unit of [\uXXXX], when it is below 256. *)
Definition hex4 (a b c d : ascii) : option ascii :=
  match hex_value a, hex_value b, hex_value c, hex_value d with
  | Some 0%N, Some 0%N, Some x, Some y => Some (ascii_of_N (16 * x + y))
  | _, _, _, _ => None
  end.

Definition unescape (e : ascii) : option ascii :=
  let n := N_of_ascii e in
  if (n =? 34)%N then Some dquote
  else if (n =? 92)%N then Some backslash
  else if (n =? 47)%N then Some "/"%char
  else if (n =? 98)%N then Some "008"%char
  else if (n =? 102)%N then Some "012"%char
  else if (n =? 110)%N then Some "010"%char
  else if (n =? 114)%N then Some "013"%char
  else if (n =? 116)%N then Some "009"%char
  else None.

Definition cons_char (c : ascii) (r : option (string * string))
  : option (string * string) :=
  match r with
  | Some (t, rest) => Some (String c t, rest)
  | None => None
  end.

(** The characters of a string literal after its opening quote, up to and
    including the closing quote. *)
Fixpoint parse_chars (s : string) : option (string * string) :=
  match s with
  | EmptyString => None
  | String c s1 =>
      if Ascii.eqb c dquote then Some (EmptyString, s1)
      else if Ascii.eqb c backslash then
        match s1 with
        | EmptyString => None
        | String e s2 =>
            if Ascii.eqb e "u" then
              match s2 with
              | String h1 (String h2 (String h3 (String h4 s3))) =>
                  match hex4 h1 h2 h3 h4 with
                  | Some c' => cons_char c' (parse_chars s3)
                  | None => None
                  end
              | _ => None
              end
            else
              match unescape e with
              | Some c' => cons_char c' (parse_chars s2)
              | None => None
              end
        end
      else if (N_of_ascii c <? 32)%N then None
      else cons_char c (parse_chars s1)
  end.

Fixpoint strip_prefix (p s : string) : option string :=
  match p with
  | EmptyString => Some s
  | String a p' =>
      match s with
      | EmptyString => None
      | String b s' => if Ascii.eqb a b then strip_prefix p' s' else None
      end
  end.

Fixpoint parse_value (fuel : nat) (s : string) : option (value * string) :=
  match fuel with
  | O => None
  | S fuel' =>
      match s with
      | EmptyString => None
      | String c r =>
          if Ascii.eqb c dquote then
            match parse_chars r with
            | Some (t, r') => Some (VStr t, r')
            | None => None
            end
          else if Ascii.eqb c "[" then
            match r with
            | String c' r' =>
                if Ascii.eqb c' "]" then Some (VArr [], r')
                else match parse_elements fuel' r with
                     | Some (l, r'') => Some (VArr l, r'')
                     | None => None
                     end
            | EmptyString => None
            end
          else if Ascii.eqb c "{" then
            match r with
            | String c' r' =>
                if Ascii.eqb c' "}" then Some (VObj [], r')
                else match parse_members fuel' r with
                     | Some (ps, r'') => Some (VObj ps, r'')
                     | None => None
                     end
            | EmptyString => None
            end
          else
            match strip_prefix "null" s with
            | Some r' => Some (VNull, r')
            | None =>
            match strip_prefix "true" s with
            | Some r' => Some (VBool true, r')
            | None =>
            match strip_prefix "false" s with
            | Some r' => Some (VBool false, r')
            | None => parse_number s
            end end end
      end
  end

(** [v (, v)* ]], after the opening bracket. *)
with parse_elements (fuel : nat) (s : string)
  : option (list value * string) :=
  match fuel with
  | O => None
  | S fuel' =>
      match parse_value fuel' s with
      | Some (v, String c r) =>
          if Ascii.eqb c "]" then Some ([v], r)
          else if Ascii.eqb c "," then
            match parse_elements fuel' r with
            | Some (l, r') => Some (v :: l, r')
            | None => None
            end
          else None
      | _ => None
      end
  end

(** ["k":v (, "k":v)* }], after the opening brace. *)
with parse_members (fuel : nat) (s : string)
  : option (list (string * value) * string) :=
  match fuel with
  | O => None
  | S fuel' =>
      match s with
      | String q s1 =>
          if Ascii.eqb q dquote then
            match parse_chars s1 with
            | Some (k, String colon s2) =>
                if Ascii.eqb colon ":" then
                  match parse_value fuel' s2 with
                  | Some (v, String c r) =>
                      if Ascii.eqb c "}" then Some ([(k, v)], r)
                      else if Ascii.eqb c "," then
                        match parse_members fuel' r with
                        | Some (ps, r') => Some ((k, v) :: ps, r')
                        | None => None
                        end
                      else None
                  | _ => None
                  end
                else None
            | _ => None
            end
          else None
      | EmptyString => None
      end
  end.

(** [JSON.parse(t)]; [JSON.parse(undefined)] reads the text [undefined],
    which is no JSON text. *)
Definition JSON_parse (t : option string) : result value :=
  match t with
  | None => Throw SyntaxError
  | Some s =>
      match parse_value (String.length s) s with
      | Some (v, EmptyString) => Ok v
      | _ => Throw SyntaxError
      end
  end.

(** A value that a JSON text denotes: no [undefined] and no [NaN] inside. *)
Fixpoint is_json (v : value) : bool :=
  match v with
  | VUndef | VNaN => false
  | VNull | VBool _ | VNum _ | VStr _ => true
  | VArr l => forallb is_json l
  | VObj ps => forallb (fun kv => is_json (snd kv)) ps
  end.

(** *** The operator [+] *)

(** The double nearest to an integer, ties to even: the integers up to
    2^53 in magnitude are doubles; above, 53 significant bits are kept. *)
Definition round_double (x : Z) : Z :=
  (let m := Z.abs x in
   if m <=? 2 ^ 53 then x
   else
     let e := Z.log2 m - 52 in
     let q := m / 2 ^ e in
     let r := m mod 2 ^ e in
     let half := 2 ^ (e - 1) in
     let q' := if r <? half then q
               else if half <? r then q + 1
               else if Z.even q then q else q + 1 in
     Z.sgn x * (q' * 2 ^ e))%Z.

(** [ToString].  An integer below 10^21 prints as its decimal digits.  An
    array joins its elements with commas, printing [null] and [undefined] as
    the empty string.  An object read from JSON has no
    method of its own: it prints as [[object Object]] by the [toString] it
    inherits, unless an own property [toString] (which is no function)
    hides that method, and then no conversion is left and a [TypeError] is
    thrown. *)
Fixpoint ToString (v : value) : result string :=
  match v with
  | VUndef => Ok "undefined"
  | VNull => Ok "null"
  | VBool true => Ok "true"
  | VBool false => Ok "false"
  | VNum n => Ok (string_of_Z n)
  | VNaN => Ok "NaN"
  | VStr s => Ok s
  | VArr l =>
      let? parts :=
        (fix parts (l : list value) : result (list string) :=
           match l with
           | [] => Ok []
           | x :: t =>
               let? s := match x with
                         | VUndef | VNull => Ok EmptyString
                         | _ => ToString x
                         end in
               let? r := parts t in
               Ok (s :: r)
           end) l in
      Ok (join_comma parts)
  | VObj ps =>
      match lookup "toString" ps with
      | Some _ => Throw TypeError
      | None => Ok "[object Object]"
      end
  end.

(** The strings that [Array.prototype.join] puts together. *)
Fixpoint join_parts (l : list value) : result (list string) :=
  match l with
  | [] => Ok []
  | x :: t =>
      let? s := match x with
                | VUndef | VNull => Ok EmptyString
                | _ => ToString x
                end in
      let? r := join_parts t in
      Ok (s :: r)
  end.

Definition ToPrimitive (v : value) : result value :=
  match v with
  | VArr _ | VObj _ => let? s := ToString v in Ok (VStr s)
  | _ => Ok v
  end.

(** [ToNumber] of a primitive that is not a string; [None] is [NaN]. *)
Definition ToNumber (p : value) : option Z :=
  match p with
  | VNull => Some 0
  | VBool b => Some (if b then 1 else 0)
  | VNum n => Some n
  | _ => None
  end.

(** [a + b]: concatenation when an operand is a string after
    [ToPrimitive], else the sum of two doubles, which is the exact sum
    rounded (a sum that reaches 2^1024, where doubles end, is outside this
    model). *)
Definition js_add (a b : value) : result value :=
  let? pa := ToPrimitive a in
  let? pb := ToPrimitive b in
  match pa, pb with
  | VStr _, _ | _, VStr _ =>
      let? sa := ToString pa in
      let? sb := ToString pb in
      Ok (VStr (sa ++ sb))
  | _, _ =>
      Ok match ToNumber pa, ToNumber pb with
         | Some x, Some y => VNum (round_double (x + y))
         | _, _ => VNaN
         end
  end.

(** *** Arrays, [Set] and object spread *)

(** [a.map(f)]: only arrays have the method. *)
Definition Array_map {B} (f : value -> result B) (a : value)
  : result (list B) :=
  match a with
  | VArr l => mapM f l
  | _ => Throw TypeError
  end.

(** [a.flat()]: one level. *)
Definition Array_flat (l : list value) : list value :=
  flat_map (fun x => match x with VArr m => m | _ => [x] end) l.

Definition key_eqb (a b : option string) : bool :=
  match a, b with
  | Some x, Some y => (x =? y)%string
  | None, None => true
  | _, _ => false
  end.

(** [Set.prototype.add]: a [Set] keeps its elements in insertion order. *)
Definition Set_add (set : list (option string)) (x : option string)
  : list (option string) :=
  if existsb (key_eqb x) set then set else (set ++ [x])%list.

(** [[...new Set(l)]]. *)
Definition Set_from (l : list (option string)) : list (option string) :=
  fold_left Set_add l [].

Fixpoint set_prop (k : string) (v : value) (ps : list (string * value))
  : list (string * value) :=
  match ps with
  | [] => [(k, v)]
  | (k', v') :: t =>
      if (k =? k')%string then (k, v) :: t else (k', v') :: set_prop k v t
  end.

Definition index_key (i : nat) : string :=
  NilZero.string_of_uint (Nat.to_uint i).

Fixpoint indexed_elems (i : nat) (l : list value) : list (string * value) :=
  match l with
  | [] => []
  | x :: t => (index_key i, x) :: indexed_elems (S i) t
  end.

Fixpoint indexed_chars (i : nat) (s : string) : list (string * value) :=
  match s with
  | EmptyString => []
  | String c t =>
      (index_key i, VStr (String c EmptyString)) :: indexed_chars (S i) t
  end.

(** The own enumerable properties that [{...v}] copies. *)
Definition own_properties (v : value) : list (string * value) :=
  match v with
  | VObj ps => ps
  | VArr l => indexed_elems 0 l
  | VStr s => indexed_chars 0 s
  | VUndef | VNull | VBool _ | VNum _ | VNaN => []
  end.

(** [{ <target>, ...v }]. *)
Definition spread (target : list (string * value)) (v : value)
  : list (string * value) :=
  fold_left (fun acc kv => set_prop (fst kv) (snd kv) acc)
    (own_properties v) target.

End JS.

Import JS.

(** ** The network *)

(** The three request templates of the file. *)
Inductive query_template : Type :=
| q_id        (* fetchRepoCommits: user(login) { id } *)
| q_commits   (* fetchRepoCommits: repository(owner, name) { refs ... } *)
| q_meta.     (* fetchRepoMeta: user/organization { repository } *)

Record payload : Type := { query : query_template; variables : value }.

(** What [retryer(fetcher, payload)] settles to, given the requests issued
    before: the axios response, or a rejection. *)
Definition network : Type := list payload -> payload -> result value.

(** An async function: it reads the network and extends the log of
    requests. *)
Definition async (A : Type) : Type :=
  network -> list payload -> result A * list payload.

Definition resolve {A} (a : A) : async A := fun _ log => (Ok a, log).
Definition throw {A} (e : error) : async A := fun _ log => (Throw e, log).
Definition lift {A} (r : result A) : async A := fun _ log => (r, log).

Definition await {A B} (m : async A) (k : A -> async B) : async B :=
  fun net log =>
    match m net log with
    | (Ok a, log') => k a net log'
    | (Throw e, log') => (Throw e, log')
    end.

Declare Scope async_scope.
Delimit Scope async_scope with async.
Notation "'let!' x ':=' m 'in' k" := (await m (fun x => k))
  (at level 10, x name, m at level 100, k at level 200) : async_scope.
Local Open Scope async_scope.

(** [await retryer(fetcher, p)]: [fetcher] posts [{ query, variables }] with
    the authorization header, [retryer] repeats it as it sees fit; the request
    is logged and the network gives the response or the rejection. *)
Definition retryer (p : payload) : async value :=
  fun net log => (net log p, (log ++ [p])%list).

(** [res.data.data] *)
Definition response_data (res : value) : result value :=
  let? body := getprop res "data" in getprop body "data".

(** ** The program: [src/fetchers/repo.js] *)

(** [node => node.target.history.nodes] *)
Definition branch_nodes (node : value) : result value :=
  let? target := getprop node "target" in
  let? history := getprop target "history" in
  getprop history "nodes".

Definition filterDuplicateCommits (branchesCommits : value)
  : result (list value) :=
  let? histories := Array_map branch_nodes branchesCommits in
  let texts := map JSON_stringify (Array_flat histories) in
  mapM JSON_parse (Set_from texts).

(** The condition of the [if] in the loop:
    [c.author.user && c.author.user.login.toLowerCase() === username.toLowerCase()]. *)
Definition authored_by (c : value) (username : string) : result bool :=
  let? author := getprop c "author" in
  let? user := getprop author "user" in
  if truthy user then
    let? login := getprop user "login" in
    let? lowered := toLowerCase login in
    Ok (lowered =? lower_string username)%string
  else Ok false.

(** The [for] loop, from index [i] on, with the two running totals. *)
Fixpoint count_loop (uniqueCommits : list value) (username : string)
  (additionsCount deletionsCount : value) : result (value * value) :=
  match uniqueCommits with
  | [] => Ok (additionsCount, deletionsCount)
  | c :: rest =>
      let? hit := authored_by c username in
      if hit then
        let? additions := getprop c "additions" in
        let? additionsCount' :=
          js_add additionsCount (js_or additions (VNum 0)) in
        let? deletions := getprop c "deletions" in
        let? deletionsCount' :=
          js_add deletionsCount (js_or deletions (VNum 0)) in
        count_loop rest username additionsCount' deletionsCount'
      else count_loop rest username additionsCount deletionsCount
  end.

(** The body of [totalAdditionsAndDeletionsByUser] below the call of
    [filterDuplicateCommits]: both counters start at 0, the loop runs over
    [uniqueCommits], and the two totals are returned in an object. *)
Definition count_unique (uniqueCommits : list value) (username : string)
  : result value :=
  let? totals := count_loop uniqueCommits username (VNum 0) (VNum 0) in
  Ok (VObj [("additionsCount", fst totals); ("deletionsCount", snd totals)]).

Definition totalAdditionsAndDeletionsByUser (branchesCommits : value)
  (username : string) : result value :=
  let? uniqueCommits := filterDuplicateCommits branchesCommits in
  count_unique uniqueCommits username.

Definition fetchRepoCommits (username reponame : string) : async value :=
  let! res_id :=
    retryer {| query := q_id;
               variables := VObj [("login", VStr username)] |} in
  let! data_id := lift (response_data res_id) in
  let! user := lift (getprop data_id "user") in
  if negb (truthy user) then throw (Error "Not found")
  else
    let! id := lift (getprop user "id") in
    let! res :=
      retryer {| query := q_commits;
                 variables := VObj [("login", VStr username);
                                    ("repo", VStr reponame);
                                    ("id", id)] |} in
    let! data := lift (response_data res) in
    let! repository := lift (getprop data "repository") in
    if negb (truthy repository) then throw (Error "Repository or refs not found")
    else
      let! refs := lift (getprop repository "refs") in
      if negb (truthy refs) then throw (Error "Repository or refs not found")
      else
        let! nodes := lift (getprop refs "nodes") in
        let! length := lift (getprop nodes "length") in
        if strict_eq_num length 0 then throw (Error "No commits found")
        else lift (totalAdditionsAndDeletionsByUser nodes username).

(** The body of [fetchRepoMeta] after the response has arrived (the Owner
    Resolver of the specification), on [data = res.data.data]. *)
Definition resolveOwner (data : value) : result value :=
  let? user := getprop data "user" in
  let? organization := getprop data "organization" in
  if negb (truthy user) && negb (truthy organization)
  then Throw (Error "Not found")
  else
    let isUser := js_and (VBool (is_null organization)) user in
    let isOrg := js_and (VBool (is_null user)) organization in
    if truthy isUser then
      let? repository := getprop user "repository" in
      if negb (truthy repository) then Throw (Error "User Repository Not found")
      else
        let? isPrivate := getprop repository "isPrivate" in
        if truthy isPrivate then Throw (Error "User Repository Not found")
        else
          let? stargazers := getprop repository "stargazers" in
          let? totalCount := getprop stargazers "totalCount" in
          Ok (VObj (set_prop "starCount" totalCount (spread [] repository)))
    else if truthy isOrg then
      let? repository := getprop organization "repository" in
      if negb (truthy repository)
      then Throw (Error "Organization Repository Not found")
      else
        let? isPrivate := getprop repository "isPrivate" in
        if truthy isPrivate
        then Throw (Error "Organization Repository Not found")
        else
          let? stargazers := getprop repository "stargazers" in
          let? totalCount := getprop stargazers "totalCount" in
          Ok (VObj (set_prop "starCount" totalCount (spread [] repository)))
    else Throw (Error "Unexpected behavior").

Definition fetchRepoMeta (username reponame : string) : async value :=
  let! res :=
    retryer {| query := q_meta;
               variables := VObj [("login", VStr username);
                                  ("repo", VStr reponame)] |} in
  let! data := lift (response_data res) in
  lift (resolveOwner data).

Definition urlExample : string :=
  "/api/pin?username=USERNAME&amp;repo=REPO_NAME".

Definition fetchRepo (username reponame : string) : async value :=
  if negb (truthy (VStr username)) && negb (truthy (VStr reponame))
  then throw (MissingParamError ["username"; "repo"] urlExample)
  else if negb (truthy (VStr username))
  then throw (MissingParamError ["username"] urlExample)
  else if negb (truthy (VStr reponame))
  then throw (MissingParamError ["repo"] urlExample)
  else
    let! repoMeta := fetchRepoMeta username reponame in
    let! repoCommits := fetchRepoCommits username reponame in
    resolve (VObj (spread (spread [] repoMeta) repoCommits)).

(** Running an async function from an empty log. *)
Definition run {A} (m : async A) (net : network) : result A * list payload :=
  m net [].

(** ** The data model of the specification, as predicates on values *)

(** [v.k] where the read cannot throw: [undefined] stands for an absent
    field. *)
Definition field (k : string) (v : value) : value :=
  match v with
  | VObj ps => match lookup k ps with Some x => x | None => VUndef end
  | _ => VUndef
  end.

Definition is_object (v : value) : bool :=
  match v with VObj _ => true | _ => false end.

(** An [additions]/[deletions] field: an integer, or missing. *)
Definition is_count (v : value) : bool :=
  match v with VUndef | VNull | VNum _ => true | _ => false end.

(** [author.user]: [{ id, login }] with a string login, or no user. *)
Definition is_user_or_null (u : value) : bool :=
  match u with
  | VUndef | VNull => true
  | VObj _ => match field "login" u with VStr _ => true | _ => false end
  | _ => false
  end.

(** CommitRecord:
    [{ oid, author: { user: { id, login } | null }, additions, deletions }],
    as it arrives in a JSON response. *)
Definition CommitRecord (c : value) : bool :=
  is_json c && is_object c && is_object (field "author" c)
  && is_user_or_null (field "user" (field "author" c))
  && is_count (field "additions" c) && is_count (field "deletions" c).

(** The commit list of a branch ref, [target.history.nodes]. *)
Definition branch_commits (b : value) : option (list value) :=
  match field "nodes" (field "history" (field "target" b)) with
  | VArr l => Some l
  | _ => None
  end.

(** BranchHistory: [{ target: { history: { nodes: [...] } } }] whose
    records all satisfy [P]. *)
Definition BranchHistory (P : value -> bool) (b : value) : bool :=
  match branch_commits b with
  | Some l => forallb P l
  | None => false
  end.

(** All the records of a sequence of branch histories, in order. *)
Definition all_commits (branches : list value) : list value :=
  flat_map (fun b => match branch_commits b with
                     | Some l => l
                     | None => []
                     end) branches.

(** Removal of duplicates under full structural equality, keeping first
    occurrences (the specification's Step 1, in its own words). *)
Fixpoint dedup_by {A} (eqb : A -> A -> bool) (l : list A) : list A :=
  match l with
  | [] => []
  | x :: t => x :: filter (fun y => negb (eqb x y)) (dedup_by eqb t)
  end.

Definition dedup_structural : list value -> list value := dedup_by value_eqb.

(** The record has a user whose login equals [login] up to case. *)
Definition by_login (login : string) (c : value) : bool :=
  match field "user" (field "author" c) with
  | VObj _ as u =>
      match field "login" u with
      | VStr l => (lower_string l =? lower_string login)%string
      | _ => false
      end
  | _ => false
  end.

(** The integer in a count field; a missing field counts zero. *)
Definition count_of (k : string) (c : value) : Z :=
  match field k c with
  | VNum n => n
  | _ => 0
  end.

Definition sum_of (k : string) (l : list value) : Z :=
  fold_right (fun c acc => count_of k c + acc) 0 l.

(** The sum of the magnitudes of a count field over a list of records. *)
Definition abs_sum (k : string) (l : list value) : Z :=
  fold_right (fun c acc => Z.abs (count_of k c) + acc) 0 l.

(** The counts of the records are small enough for every partial sum,
    formed in whatever order, to be a double that is exact: their magnitudes
    add up to 2^53 at most.  The counts of a GraphQL response are [Int]s
    (below 2^31 in magnitude) of at most 100 x 100 records, far inside this
    limit. *)
Definition safe_counts (l : list value) : bool :=
  (abs_sum "additions" l <=? 2 ^ 53) && (abs_sum "deletions" l <=? 2 ^ 53).

(** The aggregate of the specification's Step 2 over a list of records. *)
Definition aggregate_spec (login : string) (records : list value) : value :=
  let mine := filter (by_login login) records in
  VObj [("additionsCount", VNum (sum_of "additions" mine));
        ("deletionsCount", VNum (sum_of "deletions" mine))].

(** The number of nested parser calls a value needs. *)
Fixpoint vsize (v : value) : nat :=
  match v with
  | VArr l => S (fold_right (fun x n => S (vsize x + n))%nat O l)
  | VObj ps => S (fold_right (fun kv n => S (vsize (snd kv) + n))%nat O ps)
  | _ => 1%nat
  end.

(** What may follow a number in a JSON text: anything but a digit. *)
Definition no_digit_head (s : string) : Prop :=
  match s with
  | EmptyString => True
  | String c _ => digit_of_char c = None
  end.

(** The text of a value at a position where [undefined] prints as [null]. *)
Definition text_of (v : value) : string :=
  match SerializeJSONProperty v with
  | Some t => t
  | None => "null"
  end.


(** ** Notions used in the proofs about [JSON.parse] *)

(** The first character of a number is a sign or a digit. *)
Definition number_head (s : string) : Prop :=
  match s with
  | EmptyString => False
  | String c _ => Ascii.eqb c "-" = true \/ digit_of_char c <> None
  end.

Definition member_text (kv : string * value) : string :=
  (QuoteJSONString (fst kv) ++ String ":" (text_of (snd kv)))%string.

(** The first character of the text of a value closes no array. *)
Definition value_head (s : string) : Prop :=
  match s with
  | EmptyString => False
  | String c _ => Ascii.eqb c "]" = false
  end.

(** The fuel that the elements of an array or the members of an object
    need. *)
Definition elems_size (l : list value) : nat :=
  fold_right (fun x n => S (vsize x + n))%nat O l.

Definition members_size (ps : list (string * value)) : nat :=
  fold_right (fun kv n => S (vsize (snd kv) + n))%nat O ps.

Definition parses_back (v : value) : Prop :=
  is_json v = true ->
  forall fuel rest, (vsize v <= fuel)%nat -> no_digit_head rest ->
  parse_value fuel (text_of v ++ rest) = Some (v, rest).

(** ** Owner lookups, scenarios and the error taxonomy *)

(** The keys of an object are pairwise distinct. *)
Fixpoint distinct_keys (ps : list (string * value)) : bool :=
  match ps with
  | [] => true
  | (k, _) :: t =>
      negb (existsb (fun kv => (k =? fst kv)%string) t) && distinct_keys t
  end.

(** A namespace of an OwnerLookupResult: [null], or an object whose
    [repository] is [null] (or missing) or a repository record.  A repository
    record that is not marked private carries the star counter
    [stargazers]. *)
Definition is_repository (r : value) : bool :=
  is_object r
  && (truthy (field "isPrivate" r) || is_object (field "stargazers" r)).

Definition is_namespace (n : value) : bool :=
  match n with
  | VNull => true
  | VObj _ =>
      match field "repository" n with
      | VNull | VUndef => true
      | r => is_repository r
      end
  | _ => false
  end.

(** OwnerLookupResult:
    [{ user: RepositoryRecord | null, organization: RepositoryRecord | null }]. *)
Definition OwnerLookupResult (data : value) : bool :=
  match data with
  | VObj ps =>
      match lookup "user" ps, lookup "organization" ps with
      | Some u, Some o => is_namespace u && is_namespace o
      | _, _ => false
      end
  | _ => false
  end.

(** The nested repository is null, or marked private. *)
Definition unavailable (r : value) : bool :=
  negb (truthy r) || truthy (field "isPrivate" r).

(** The parameters that are missing, in the order the program names them. *)
Definition missing_params (username reponame : string) : list string :=
  ((if (username =? "")%string then ["username"] else [])
   ++ (if (reponame =? "")%string then ["repo"] else []))%list.

(** The three requests of one call of [fetchRepo]. *)
Definition meta_request (username reponame : string) : payload :=
  {| query := q_meta;
     variables := VObj [("login", VStr username); ("repo", VStr reponame)] |}.

Definition id_request (username : string) : payload :=
  {| query := q_id; variables := VObj [("login", VStr username)] |}.

Definition commits_request (username reponame : string) (id : value)
  : payload :=
  {| query := q_commits;
     variables := VObj [("login", VStr username); ("repo", VStr reponame);
                        ("id", id)] |}.

(** The axios response whose body is [{ data: data }]. *)
Definition response (data : value) : value :=
  VObj [("data", VObj [("data", data)])].

(** A remote service in a fixed state: what it answers to each of the three
    queries. *)
Record scenario : Type := {
  meta_data : value;       (* to the metadata query *)
  identity_data : value;   (* to the identity query *)
  commits_data : value     (* to the repository/commit query *)
}.

Definition net_of (s : scenario) : network :=
  fun _ p =>
    Ok (response match query p with
                 | q_meta => meta_data s
                 | q_id => identity_data s
                 | q_commits => commits_data s
                 end).

(** The responses of a scenario have the shapes of the GraphQL schema. *)
Definition is_identity (d : value) : bool :=
  is_object d
  && match field "user" d with VNull | VObj _ => true | _ => false end.

Definition is_refs (r : value) : bool :=
  match r with
  | VNull => true
  | VObj _ => match field "nodes" r with VArr _ => true | _ => false end
  | _ => false
  end.

Definition is_commits (d : value) : bool :=
  is_object d
  && match field "repository" d with
     | VNull => true
     | VObj _ as r => is_refs (field "refs" r)
     | _ => false
     end.

Definition well_typed (s : scenario) : bool :=
  OwnerLookupResult (meta_data s) && is_identity (identity_data s)
  && is_commits (commits_data s).

(** The error kinds of the specification's taxonomy (section 7). *)
Inductive kind : Type :=
| MissingParameter (missing : list string)
| NotFound_owner
| NotFound_user_repository
| NotFound_organization_repository
| NotFound_identity
| NotFound_repository_or_refs
| NotFound_no_commits
| Unexpected.

(** The error value that the program throws for each kind. *)
Definition thrown (k : kind) : error :=
  match k with
  | MissingParameter l => MissingParamError l urlExample
  | NotFound_owner => Error "Not found"
  | NotFound_user_repository => Error "User Repository Not found"
  | NotFound_organization_repository =>
      Error "Organization Repository Not found"
  | NotFound_identity => Error "Not found"
  | NotFound_repository_or_refs => Error "Repository or refs not found"
  | NotFound_no_commits => Error "No commits found"
  | Unexpected => Error "Unexpected behavior"
  end.

(** The kind of the failure of the commit retrieval on the answers to its
    two queries: the login
    does not resolve; the repository or its ref list is absent; the ref list
    is empty. *)
Definition commits_failure_kind (data_id data : value) : option kind :=
  if is_null (field "user" data_id) then Some NotFound_identity
  else
    let repository := field "repository" data in
    if is_null repository || is_null (field "refs" repository)
    then Some NotFound_repository_or_refs
    else
      match field "nodes" (field "refs" repository) with
      | VArr [] => Some NotFound_no_commits
      | _ => None
      end.

(** The kind of the failure of the Owner Resolver on a lookup result, in
    the words of the specification (section 4.1). *)
Definition owner_failure_kind (data : value) : option kind :=
  let user := field "user" data in
  let organization := field "organization" data in
  match is_null user, is_null organization with
  | true, true => Some NotFound_owner
  | false, true =>
      if unavailable (field "repository" user)
      then Some NotFound_user_repository else None
  | true, false =>
      if unavailable (field "repository" organization)
      then Some NotFound_organization_repository else None
  | false, false => Some Unexpected
  end.

(** The kind of the failure of [fetchRepo username reponame] in a scenario,
    by the taxonomy's descriptions; [None] when none of them applies. *)
Definition failure_kind (username reponame : string) (s : scenario)
  : option kind :=
  match missing_params username reponame with
  | (_ :: _) as l => Some (MissingParameter l)
  | [] =>
      match owner_failure_kind (meta_data s) with
      | Some k => Some k
      | None => commits_failure_kind (identity_data s) (commits_data s)
      end
  end.

(** The outcome of [fetchRepo] that the caller observes. *)
Definition outcome (username reponame : string) (s : scenario)
  : result value :=
  fst (run (fetchRepo username reponame) (net_of s)).

(** ** Example data *)

Definition commit (oid login : string) (additions deletions : Z) : value :=
  VObj [("oid", VStr oid);
        ("author", VObj [("user", VObj [("id", VStr "1");
                                        ("login", VStr login)])]);
        ("additions", VNum additions);
        ("deletions", VNum deletions)].

Definition branch (name : string) (commits : list value) : value :=
  VObj [("name", VStr name);
        ("target", VObj [("history", VObj [("nodes", VArr commits)])])].

(** Two branches that share one record; a third record reuses the hash of
    the shared one with other counts. *)
Definition shared_branches : list value :=
  [branch "main" [commit "abc123" "testuser" 10 5;
                  commit "def456" "TestUser" 15 3];
   branch "dev" [commit "abc123" "testuser" 10 5;
                 commit "abc123" "testuser" 7 5]].

(** The repository of the test suite. *)
Definition tlsscanner : value :=
  VObj [("name", VStr "tlsscanner");
        ("stargazers", VObj [("totalCount", VNum 0)]);
        ("description", VStr "");
        ("primaryLanguage", VObj [("color", VStr "#"); ("id", VStr "");
                                  ("name", VStr "")]);
        ("forkCount", VNum 0)].

Definition user_owned (repository : value) : value :=
  VObj [("user", VObj [("repository", repository)]);
        ("organization", VNull)].

Definition organization_owned (repository : value) : value :=
  VObj [("user", VNull);
        ("organization", VObj [("repository", repository)])].

(** Every field of one record is a field of the other with an equal value,
    in whatever order the fields come. *)
Definition same_fields (a b : value) : bool :=
  match a, b with
  | VObj p, VObj q =>
      (List.length p =? List.length q)%nat
      && forallb (fun kv => value_eqb (field (fst kv) b) (snd kv)) p
  | _, _ => value_eqb a b
  end.

(** The record [commit oid login additions deletions] with its fields in
    another order. *)
Definition commit_reordered (oid login : string) (additions deletions : Z)
  : value :=
  VObj [("additions", VNum additions);
        ("deletions", VNum deletions);
        ("oid", VStr oid);
        ("author", VObj [("user", VObj [("id", VStr "1");
                                        ("login", VStr login)])])].

(** The end-to-end example: two branches with one commit each, no overlap,
    both authored by the requesting user. *)
Definition end_to_end : scenario :=
  {| meta_data := user_owned tlsscanner;
     identity_data := VObj [("user", VObj [("id", VStr "1")])];
     commits_data :=
       VObj [("repository",
              VObj [("refs",
                     VObj [("nodes",
                            VArr [branch "main" [commit "abc123" "testuser" 10 5];
                                  branch "dev" [commit "def456" "testuser" 15 3]])])])] |}.

(** Neither namespace resolves. *)
Definition no_owner : scenario :=
  {| meta_data := VObj [("user", VNull); ("organization", VNull)];
     identity_data := VObj [("user", VNull)];
     commits_data := VObj [("repository", VNull)] |}.

(** An organization owns the repository; its login is no user login, so the
    identity lookup finds nothing. *)
Definition no_identity : scenario :=
  {| meta_data := organization_owned tlsscanner;
     identity_data := VObj [("user", VNull)];
     commits_data := commits_data end_to_end |}.

(** The reconciler has no [throw] of its own: what it throws comes from a
    property read, a method call or [JSON.parse]. *)
Definition runtime_error (e : error) : Prop :=
  e = TypeError \/ e = SyntaxError.

(** ** The pure steps of the commit retrieval, and the mock of the tests *)

(** [null] or [undefined]. *)
Definition is_nullish (v : value) : bool :=
  match v with VUndef | VNull => true | _ => false end.

Definition is_array (v : value) : bool :=
  match v with VArr _ => true | _ => false end.

(** What [fetchRepoCommits] does with the answer to the identity query,
    before its second request: [data_id.user.id], or the error. *)
Definition identity_of_response (res_id : value) : result value :=
  let? data_id := response_data res_id in
  let? user := getprop data_id "user" in
  if negb (truthy user) then Throw (Error "Not found")
  else getprop user "id".

(** What [fetchRepoCommits] does with the answer to the commit query: the
    two checks, then the reconciler on [data.repository.refs.nodes]. *)
Definition commits_of_response (res : value) (username : string)
  : result value :=
  let? data := response_data res in
  let? repository := getprop data "repository" in
  if negb (truthy repository)
  then Throw (Error "Repository or refs not found")
  else
    let? refs := getprop repository "refs" in
    if negb (truthy refs) then Throw (Error "Repository or refs not found")
    else
      let? nodes := getprop refs "nodes" in
      let? length := getprop nodes "length" in
      if strict_eq_num length 0 then Throw (Error "No commits found")
      else totalAdditionsAndDeletionsByUser nodes username.

(** [res.data.data.repository.refs.nodes] *)
Definition refs_nodes (res : value) : result value :=
  let? data := response_data res in
  let? repository := getprop data "repository" in
  let? refs := getprop repository "refs" in
  getprop refs "nodes".

(** The network of the test suite,
    [mock.onPost("https://api.github.com/graphql").reply(200, body)]: every
    request is answered with the same body. *)
Definition mock_reply (body : value) : network :=
  fun _ _ => Ok (VObj [("data", body); ("status", VNum 200)]).

(** The end-to-end service, except that the identity request is rejected. *)
Definition identity_times_out : network :=
  fun log p =>
    match query p with
    | q_id => Throw (Rejected "timeout")
    | q_meta | q_commits => net_of end_to_end log p
    end.

(** [data_repo.repository], [data_user] and [data_org] of the test suite. *)
Definition data_repo_repository : value :=
  VObj [("name", VStr "tlsscanner");
        ("stargazers", VObj [("totalCount", VNum 0)]);
        ("description", VStr "");
        ("primaryLanguage", VObj [("color", VStr "#"); ("id", VStr "");
                                  ("name", VStr "")]);
        ("forkCount", VNum 0);
        ("defaultBranchRef",
         VObj [("target",
                VObj [("history",
                       VObj [("totalCount", VNum 2);
                             ("nodes",
                              VArr [commit "abc123" "testuser" 10 5;
                                    commit "def456" "testuser" 15 3])])])])].

Definition data_user : value :=
  VObj [("data", user_owned data_repo_repository)].

Definition data_org : value :=
  VObj [("data", organization_owned data_repo_repository)].

(** * Facts about the JavaScript fragment *)

Module JSFacts.

#[local] Open Scope string_scope.

Lemma append_assoc (a b c : string) : ((a ++ b) ++ c = a ++ (b ++ c))%string.
Proof. induction a as [|x a IH]; simpl; [reflexivity | now rewrite IH]. Qed.

Lemma join_comma_cons (x y : string) (l : list string) :
  join_comma (x :: y :: l) = x ++ String "," (join_comma (y :: l)).
Proof. reflexivity. Qed.

Lemma append_length (a b : string) :
  String.length (a ++ b) = (String.length a + String.length b)%nat.
Proof. induction a as [|x a IH]; simpl; [reflexivity | now rewrite IH]. Qed.

(** *** String literals *)

Lemma parse_chars_escape_char (c : ascii) (s : string) :
  parse_chars (escape_char c ++ s) = cons_char c (parse_chars s).
Proof.
  destruct c as [[] [] [] [] [] [] [] []]; reflexivity.
Qed.

Lemma parse_chars_escape (s rest : string) :
  parse_chars (escape s ++ String dquote rest) = Some (s, rest).
Proof.
  induction s as [|c s IH]; simpl.
  - reflexivity.
  - rewrite append_assoc, parse_chars_escape_char, IH. reflexivity.
Qed.

Lemma parse_quoted (s rest : string) :
  QuoteJSONString s ++ rest = String dquote (escape s ++ String dquote rest).
Proof.
  unfold QuoteJSONString. simpl. now rewrite append_assoc.
Qed.

(** *** Numbers *)

Lemma parse_digits_print (u : uint) (rest : string) :
  no_digit_head rest ->
  parse_digits (NilEmpty.string_of_uint u ++ rest) = (u, rest).
Proof.
  intros Hrest.
  induction u as [|u IH|u IH|u IH|u IH|u IH|u IH|u IH|u IH|u IH|u IH];
    simpl; try (rewrite IH; reflexivity).
  destruct rest as [|c r]; simpl in *; [reflexivity | now rewrite Hrest].
Qed.

Lemma parse_number_uint (u : uint) (rest : string) :
  u <> Nil -> no_digit_head rest ->
  parse_number (NilEmpty.string_of_uint u ++ rest)
  = Some (VNum (Z.of_int (Pos u)), rest).
Proof.
  intros Hu Hrest.
  pose proof (parse_digits_print u rest Hrest) as Hd.
  destruct u; try congruence;
    simpl NilEmpty.string_of_uint in *; simpl append in *;
    unfold parse_number;
    match goal with
    | |- context [Ascii.eqb ?c "-"] =>
        change (Ascii.eqb c "-") with false; cbv iota
    end;
    rewrite Hd; reflexivity.
Qed.

Lemma parse_number_print (n : Z) (rest : string) :
  no_digit_head rest ->
  parse_number (string_of_Z n ++ rest) = Some (VNum n, rest).
Proof.
  intros Hrest. unfold string_of_Z.
  rewrite <- (DecimalZ.of_to n) at 2.
  destruct n as [|p|p]; simpl Z.to_int.
  - apply (parse_number_uint zero rest); [discriminate | exact Hrest].
  - unfold NilZero.string_of_int, NilZero.string_of_uint.
    pose proof (DecimalPos.Unsigned.to_uint_nonnil p) as Hp.
    destruct (Pos.to_uint p) eqn:E; try congruence;
      rewrite <- E in *; now apply parse_number_uint.
  - unfold NilZero.string_of_int, NilZero.string_of_uint.
    pose proof (DecimalPos.Unsigned.to_uint_nonnil p) as Hp.
    assert (Hd := parse_digits_print (Pos.to_uint p) rest Hrest).
    destruct (Pos.to_uint p) eqn:E; try congruence;
      rewrite <- E in *; simpl append; unfold parse_number;
      change (Ascii.eqb "-" "-") with true; cbv iota;
      rewrite Hd; rewrite E; reflexivity.
Qed.


Lemma number_head_print (n : Z) (rest : string) :
  number_head (string_of_Z n ++ rest).
Proof.
  unfold string_of_Z.
  destruct n as [|p|p]; simpl Z.to_int.
  - simpl. right. discriminate.
  - unfold NilZero.string_of_int, NilZero.string_of_uint.
    pose proof (DecimalPos.Unsigned.to_uint_nonnil p) as Hp.
    destruct (Pos.to_uint p); try congruence; simpl; right; discriminate.
  - simpl. left. reflexivity.
Qed.

Lemma parse_value_number_head (fuel : nat) (s : string) :
  number_head s -> parse_value (S fuel) s = parse_number s.
Proof.
  destruct s as [|c s]; simpl number_head; [intros [] |].
  destruct c as [[] [] [] [] [] [] [] []];
    (intros [H | H]; [discriminate H || reflexivity
                     | (exfalso; apply H; reflexivity) || reflexivity]).
Qed.

(** *** [JSON.parse] inverts [JSON.stringify] *)



Lemma stringify_json (v : value) :
  is_json v = true -> SerializeJSONProperty v = Some (text_of v).
Proof.
  unfold text_of. destruct v; simpl; try discriminate; try reflexivity.
  destruct b; reflexivity.
Qed.

Lemma text_of_arr (l : list value) :
  text_of (VArr l) = String "[" (join_comma (map text_of l) ++ "]").
Proof. reflexivity. Qed.

Lemma text_of_obj (ps : list (string * value)) :
  forallb (fun kv => is_json (snd kv)) ps = true ->
  text_of (VObj ps) = String "{" (join_comma (map member_text ps) ++ "}").
Proof.
  intros H. unfold text_of. simpl. do 3 f_equal.
  induction ps as [|[k v] ps IH]; simpl in *; [reflexivity |].
  apply andb_true_iff in H as [Hv Hps].
  rewrite (stringify_json v Hv), (IH Hps). reflexivity.
Qed.

Lemma number_head_value_head (s : string) : number_head s -> value_head s.
Proof.
  destruct s as [|c s]; simpl; [tauto |].
  destruct c as [[] [] [] [] [] [] [] []];
    (intros [H | H]; [discriminate H || reflexivity
                     | (exfalso; apply H; reflexivity) || reflexivity]).
Qed.

Lemma text_head (v : value) (rest : string) :
  is_json v = true -> value_head (text_of v ++ rest).
Proof.
  destruct v; simpl; try discriminate; intros _; try reflexivity.
  - destruct b; reflexivity.
  - apply number_head_value_head, number_head_print.
Qed.

Lemma parse_value_string (fuel : nat) (r : string) :
  parse_value (S fuel) (String dquote r)
  = match parse_chars r with
    | Some (t, r') => Some (VStr t, r')
    | None => None
    end.
Proof. reflexivity. Qed.

Lemma parse_value_array (fuel : nat) (r : string) :
  value_head r ->
  parse_value (S fuel) (String "[" r)
  = match parse_elements fuel r with
    | Some (l, r') => Some (VArr l, r')
    | None => None
    end.
Proof.
  destruct r as [|c r]; simpl value_head; [tauto |].
  intros H. simpl. rewrite H. reflexivity.
Qed.

Lemma parse_value_object (fuel : nat) (r : string) :
  parse_value (S fuel) (String "{" (String dquote r))
  = match parse_members fuel (String dquote r) with
    | Some (ps, r') => Some (VObj ps, r')
    | None => None
    end.
Proof. reflexivity. Qed.

Lemma parse_elements_step (fuel : nat) (s : string) :
  parse_elements (S fuel) s
  = match parse_value fuel s with
    | Some (v, String c r) =>
        if Ascii.eqb c "]" then Some ([v], r)
        else if Ascii.eqb c "," then
          match parse_elements fuel r with
          | Some (l, r') => Some (v :: l, r')
          | None => None
          end
        else None
    | _ => None
    end.
Proof. reflexivity. Qed.

Lemma parse_members_step (fuel : nat) (k r : string) :
  parse_members (S fuel) (QuoteJSONString k ++ String ":" r)
  = match parse_value fuel r with
    | Some (v, String c r') =>
        if Ascii.eqb c "}" then Some ([(k, v)], r')
        else if Ascii.eqb c "," then
          match parse_members fuel r' with
          | Some (ps, r'') => Some ((k, v) :: ps, r'')
          | None => None
          end
        else None
    | _ => None
    end.
Proof.
  rewrite parse_quoted.
  change (parse_members (S fuel) (String dquote ?x))
    with (match parse_chars x with
          | Some (k, String colon s2) =>
              if Ascii.eqb colon ":" then
                match parse_value fuel s2 with
                | Some (v, String c r) =>
                    if Ascii.eqb c "}" then Some ([(k, v)], r)
                    else if Ascii.eqb c "," then
                      match parse_members fuel r with
                      | Some (ps, r') => Some ((k, v) :: ps, r')
                      | None => None
                      end
                    else None
                | _ => None
                end
              else None
          | _ => None
          end).
  rewrite parse_chars_escape. reflexivity.
Qed.



Lemma parse_elements_text (l : list value) :
  Forall parses_back l -> l <> [] -> forallb is_json l = true ->
  forall fuel rest, (elems_size l <= fuel)%nat ->
  parse_elements fuel (join_comma (map text_of l) ++ String "]" rest)
  = Some (l, rest).
Proof.
  induction 1 as [|x l Hx Hl IH]; [congruence |].
  intros _ Hj fuel rest Hf. simpl in Hj.
  apply andb_true_iff in Hj as [Hjx Hjl].
  destruct fuel as [|fuel]; [simpl in Hf; lia |].
  rewrite parse_elements_step.
  destruct l as [|y l].
  - simpl join_comma.
    rewrite (Hx Hjx fuel (String "]" rest)); simpl in *; [reflexivity | lia | reflexivity].
  - change (join_comma (map text_of (x :: y :: l)))
      with (text_of x ++ String "," (join_comma (map text_of (y :: l)))).
    rewrite append_assoc.
    change ((String "," ?a) ++ ?b) with (String "," (a ++ b)).
    rewrite (Hx Hjx fuel); [| simpl in *; lia | reflexivity].
    change (Ascii.eqb "," "]") with false.
    change (Ascii.eqb "," ",") with true. cbv iota.
    rewrite IH; [reflexivity | discriminate | exact Hjl |].
    change (elems_size (x :: y :: l))
      with (S (vsize x + elems_size (y :: l)))%nat in Hf. lia.
Qed.

Lemma parse_members_text (ps : list (string * value)) :
  Forall (fun kv => parses_back (snd kv)) ps -> ps <> [] ->
  forallb (fun kv => is_json (snd kv)) ps = true ->
  forall fuel rest, (members_size ps <= fuel)%nat ->
  parse_members fuel (join_comma (map member_text ps) ++ String "}" rest)
  = Some (ps, rest).
Proof.
  induction 1 as [|[k x] ps Hx Hl IH]; [congruence |].
  intros _ Hj fuel rest Hf. simpl in Hj, Hx.
  apply andb_true_iff in Hj as [Hjx Hjl].
  destruct fuel as [|fuel]; [simpl in Hf; lia |].
  destruct ps as [|q ps].
  - simpl join_comma. unfold member_text. simpl fst. simpl snd.
    rewrite append_assoc.
    change ((String ":" ?a) ++ ?b) with (String ":" (a ++ b)).
    rewrite parse_members_step.
    rewrite (Hx Hjx fuel (String "}" rest)); simpl in *; [reflexivity | lia | reflexivity].
  - change (join_comma (map member_text ((k, x) :: q :: ps)))
      with (member_text (k, x)
            ++ String "," (join_comma (map member_text (q :: ps)))).
    unfold member_text at 1. simpl fst. simpl snd.
    rewrite !append_assoc.
    change ((String ":" ?a) ++ ?b) with (String ":" (a ++ b)).
    rewrite ?append_assoc.
    change ((String "," ?a) ++ ?b) with (String "," (a ++ b)).
    rewrite parse_members_step.
    rewrite (Hx Hjx fuel); [| simpl in *; lia | reflexivity].
    change (Ascii.eqb "," "}") with false.
    change (Ascii.eqb "," ",") with true. cbv iota.
    rewrite IH; [reflexivity | discriminate | exact Hjl |].
    change (members_size ((k, x) :: q :: ps))
      with (S (vsize x + members_size (q :: ps)))%nat in Hf. lia.
Qed.

Lemma parse_text (v : value) : parses_back v.
Proof.
  induction v as [| |b|n| |s|l IH|ps IH] using value_deep_ind;
    intros Hj fuel rest Hf Hr; try discriminate;
    (destruct fuel as [|fuel]; [simpl in Hf; lia |]).
  - reflexivity.
  - destruct b; reflexivity.
  - change (text_of (VNum n)) with (string_of_Z n).
    rewrite parse_value_number_head by apply number_head_print.
    now apply parse_number_print.
  - change (text_of (VStr s)) with (QuoteJSONString s).
    rewrite parse_quoted, parse_value_string, parse_chars_escape.
    reflexivity.
  - rewrite text_of_arr. simpl in Hj.
    change ((String "[" ?a) ++ ?b) with (String "[" (a ++ b)).
    rewrite append_assoc.
    change ((String "]" ?a) ++ ?b) with (String "]" (a ++ b)).
    change ("" ++ rest) with rest.
    destruct l as [|x l]; [reflexivity |].
    rewrite parse_value_array.
    + rewrite parse_elements_text; auto; [discriminate |].
      simpl in Hf. unfold elems_size. simpl. lia.
    + simpl in Hj. apply andb_true_iff in Hj as [Hjx _].
      destruct l; simpl join_comma.
      * now apply text_head.
      * rewrite append_assoc. now apply text_head.
  - simpl in Hj. rewrite (text_of_obj ps Hj).
    change ((String "{" ?a) ++ ?b) with (String "{" (a ++ b)).
    rewrite append_assoc.
    change ((String "}" ?a) ++ ?b) with (String "}" (a ++ b)).
    change ("" ++ rest) with rest.
    destruct ps as [|[k x] ps]; [reflexivity |].
    assert (Hq : exists r, join_comma (map member_text ((k, x) :: ps))
                           ++ String "}" rest = String dquote r).
    { destruct ps; simpl join_comma; unfold member_text at 1;
        unfold QuoteJSONString; simpl; eexists; reflexivity. }
    destruct Hq as [r Hq]. rewrite Hq, parse_value_object, <- Hq.
    rewrite parse_members_text; auto; [discriminate |].
    simpl in Hf. unfold members_size. simpl. lia.
Qed.

(** [JSON.parse(JSON.stringify(v))] is [v] on every JSON value. *)
Lemma size_le_text (v : value) :
  is_json v = true -> (vsize v <= String.length (text_of v))%nat.
Proof.
  induction v as [| |b|n| |s|l IH|ps IH] using value_deep_ind;
    intros Hj; try discriminate.
  - simpl. lia.
  - destruct b; simpl; lia.
  - pose proof (number_head_print n "") as H.
    change (text_of (VNum n)) with (string_of_Z n).
    destruct (string_of_Z n ++ "") eqn:E; [destruct H |].
    destruct (string_of_Z n); [discriminate E |]. simpl. lia.
  - simpl. lia.
  - rewrite text_of_arr. simpl in Hj. simpl String.length.
    rewrite append_length. simpl String.length.
    change (vsize (VArr l)) with (S (elems_size l)).
    enough (elems_size l <= String.length (join_comma (map text_of l)) + 1)%nat
      by lia.
    induction IH as [|x l Hx Hl IHl]; [simpl; lia |].
    simpl in Hj. apply andb_true_iff in Hj as [Hjx Hjl].
    specialize (Hx Hjx). specialize (IHl Hjl).
    change (elems_size (x :: l)) with (S (vsize x + elems_size l))%nat.
    destruct l as [|y l].
    + simpl. lia.
    + cbn [map] in *. rewrite join_comma_cons, append_length.
      cbn [String.length]. lia.
  - simpl in Hj. rewrite (text_of_obj ps Hj). simpl String.length.
    rewrite append_length. simpl String.length.
    change (vsize (VObj ps)) with (S (members_size ps)).
    enough (members_size ps
            <= String.length (join_comma (map member_text ps)) + 1)%nat
      by lia.
    induction IH as [|[k x] ps Hx Hl IHl]; [simpl; lia |].
    simpl in Hj, Hx. apply andb_true_iff in Hj as [Hjx Hjl].
    specialize (Hx Hjx). specialize (IHl Hjl).
    assert (Hm : (vsize x <= String.length (member_text (k, x)))%nat).
    { unfold member_text. rewrite append_length. simpl. lia. }
    change (members_size ((k, x) :: ps))
      with (S (vsize x + members_size ps))%nat.
    destruct ps as [|q ps].
    + simpl join_comma. simpl members_size. lia.
    + cbn [map] in *. rewrite join_comma_cons, append_length.
      cbn [String.length]. lia.
Qed.

Lemma append_empty (s : string) : s ++ "" = s.
Proof. induction s as [|c s IH]; simpl; [reflexivity | now rewrite IH]. Qed.

Lemma JSON_parse_stringify (v : value) :
  is_json v = true -> JSON_parse (JSON_stringify v) = Ok v.
Proof.
  intros Hj. unfold JSON_stringify. rewrite (stringify_json v Hj).
  unfold JSON_parse.
  pose proof (parse_text v Hj (String.length (text_of v)) ""
                (size_le_text v Hj) I) as H.
  rewrite append_empty in H. now rewrite H.
Qed.

Lemma JSON_stringify_inj (a b : value) :
  is_json a = true -> is_json b = true ->
  JSON_stringify a = JSON_stringify b -> a = b.
Proof.
  intros Ha Hb E.
  pose proof (JSON_parse_stringify a Ha) as Pa.
  pose proof (JSON_parse_stringify b Hb) as Pb.
  rewrite E in Pa. congruence.
Qed.

End JSFacts.

(** * Facts about the program *)

Module RepoFacts.

Import JSFacts.

(** *** Structural equality *)

Lemma value_eqb_eq (a : value) : forall b, value_eqb a b = true <-> a = b.
Proof.
  induction a as [| |x|x| |x|l IH|ps IH] using value_deep_ind;
    intros [| |y|y| |y|m|qs]; simpl; try (split; congruence).
  - rewrite Bool.eqb_true_iff. split; congruence.
  - rewrite Z.eqb_eq. split; congruence.
  - rewrite String.eqb_eq. split; congruence.
  - revert m. induction IH as [|a l Ha Hl IHl]; intros [|b m];
      try (split; congruence).
    rewrite andb_true_iff, Ha, IHl. split.
    + intros [-> E]. congruence.
    + intros E. injection E as -> ->. auto.
  - revert qs. induction IH as [|[k a] ps Ha Hl IHl]; intros [|[k' b] qs];
      try (split; congruence).
    simpl in Ha.
    rewrite !andb_true_iff, String.eqb_eq, Ha, IHl. split.
    + intros [[-> ->] E]. congruence.
    + intros E. injection E as -> -> ->. auto.
Qed.

Lemma value_eqb_refl (a : value) : value_eqb a a = true.
Proof. now apply value_eqb_eq. Qed.

Lemma key_eqb_eq (a b : option string) : key_eqb a b = true <-> a = b.
Proof.
  destruct a, b; simpl; try (split; congruence).
  rewrite String.eqb_eq. split; congruence.
Qed.

(** *** [Set] keeps the first occurrence of every element *)

Section Dedup.
Context {A : Type} (eqb : A -> A -> bool).
Hypothesis eqb_eq : forall a b, eqb a b = true <-> a = b.

Lemma dedup_by_In (x : A) (l : list A) :
  In x (dedup_by eqb l) <-> In x l.
Proof.
  induction l as [|y l IH]; simpl; [tauto |].
  rewrite filter_In, IH. split.
  - tauto.
  - intros [-> | H]; [now left |].
    destruct (eqb y x) eqn:E.
    + left. now apply eqb_eq.
    + right. split; [exact H | reflexivity].
Qed.

Lemma dedup_by_NoDup (l : list A) : NoDup (dedup_by eqb l).
Proof.
  induction l as [|y l IH]; simpl; constructor.
  - rewrite filter_In. intros [_ H].
    assert (eqb y y = true) as E by now apply eqb_eq.
    now rewrite E in H.
  - now apply NoDup_filter.
Qed.
End Dedup.

Lemma filter_filter {A} (p q : A -> bool) (l : list A) :
  filter p (filter q l) = filter (fun y => q y && p y) l.
Proof.
  induction l as [|x l IH]; simpl; [reflexivity |].
  destruct (q x); simpl; [destruct (p x) |]; now rewrite IH.
Qed.

Lemma key_eqb_sym (a b : option string) : key_eqb a b = key_eqb b a.
Proof.
  destruct (key_eqb a b) eqn:E1, (key_eqb b a) eqn:E2; try reflexivity.
  - apply key_eqb_eq in E1. subst. rewrite <- E2. symmetry.
    now apply key_eqb_eq.
  - apply key_eqb_eq in E2. subst. rewrite <- E1. now apply key_eqb_eq.
Qed.

Lemma fold_Set_add (l acc : list (option string)) :
  fold_left Set_add l acc
  = acc ++ filter (fun y => negb (existsb (key_eqb y) acc))
             (dedup_by key_eqb l).
Proof.
  revert acc. induction l as [|x l IH]; intros acc; simpl.
  - now rewrite app_nil_r.
  - rewrite IH. unfold Set_add.
    destruct (existsb (key_eqb x) acc) eqn:E; simpl.
    + f_equal. rewrite filter_filter. apply filter_ext_in.
      intros y _.
      destruct (existsb (key_eqb y) acc) eqn:Ey; simpl;
        [now rewrite andb_false_r |].
      rewrite andb_true_r.
      destruct (key_eqb x y) eqn:Exy; [| reflexivity].
      apply key_eqb_eq in Exy. subst. congruence.
    + rewrite <- app_assoc. simpl. do 2 f_equal.
      rewrite filter_filter. apply filter_ext_in.
      intros y _. rewrite existsb_app. simpl. rewrite orb_false_r.
      rewrite negb_orb, (key_eqb_sym y x). apply andb_comm.
Qed.

Lemma Set_from_dedup (l : list (option string)) :
  Set_from l = dedup_by key_eqb l.
Proof.
  unfold Set_from. rewrite fold_Set_add. simpl. apply filter_true.
Qed.

(** Deduplicating the texts is deduplicating the values, where the
    serialization is injective. *)
Lemma dedup_by_map (l : list value) :
  forallb is_json l = true ->
  dedup_by key_eqb (map JSON_stringify l)
  = map JSON_stringify (dedup_structural l).
Proof.
  unfold dedup_structural.
  induction l as [|x l IH]; simpl; [reflexivity |].
  intros H. apply andb_true_iff in H as [Hx Hl].
  rewrite (IH Hl), filter_map_swap. do 2 f_equal.
  apply filter_ext_in. intros y Hy.
  clear IH.
  assert (Hjy : is_json y = true).
  { rewrite forallb_forall in Hl. apply Hl.
    now apply (dedup_by_In value_eqb value_eqb_eq). }
  f_equal.
  destruct (value_eqb x y) eqn:E.
  - apply value_eqb_eq in E. subst. now apply key_eqb_eq.
  - destruct (key_eqb (JSON_stringify x) (JSON_stringify y)) eqn:E';
      [| reflexivity].
    apply key_eqb_eq, JSON_stringify_inj in E'; auto.
    subst. now rewrite value_eqb_refl in E.
Qed.

Lemma mapM_parse_stringify (l : list value) :
  forallb is_json l = true ->
  mapM JSON_parse (map JSON_stringify l) = Ok l.
Proof.
  induction l as [|x l IH]; simpl; [reflexivity |].
  intros H. apply andb_true_iff in H as [Hx Hl].
  now rewrite (JSON_parse_stringify x Hx), (IH Hl).
Qed.

Lemma dedup_structural_In (x : value) (l : list value) :
  In x (dedup_structural l) <-> In x l.
Proof. apply (dedup_by_In value_eqb value_eqb_eq). Qed.

Lemma dedup_structural_NoDup (l : list value) : NoDup (dedup_structural l).
Proof. apply (dedup_by_NoDup value_eqb value_eqb_eq). Qed.

Lemma forallb_dedup (P : value -> bool) (l : list value) :
  forallb P l = true -> forallb P (dedup_structural l) = true.
Proof.
  rewrite !forallb_forall. intros H x Hx.
  now apply H, dedup_structural_In.
Qed.

(** *** Reading the branch histories *)

Lemma getprop_field (v : value) (k : string) :
  field k v <> VUndef -> getprop v k = Ok (field k v).
Proof. destruct v; simpl; congruence. Qed.

Lemma getprop_object (ps : list (string * value)) (k : string) :
  getprop (VObj ps) k = Ok (field k (VObj ps)).
Proof. reflexivity. Qed.

Lemma branch_nodes_commits (b : value) (l : list value) :
  branch_commits b = Some l -> branch_nodes b = Ok (VArr l).
Proof.
  unfold branch_commits, branch_nodes. intros H.
  destruct (field "nodes" (field "history" (field "target" b))) eqn:E;
    try discriminate.
  injection H as ->.
  assert (H2 : field "history" (field "target" b) <> VUndef)
    by (intros C; rewrite C in E; discriminate).
  assert (H1 : field "target" b <> VUndef)
    by (intros C; rewrite C in H2; now apply H2).
  rewrite (getprop_field _ _ H1). simpl.
  rewrite (getprop_field _ _ H2). simpl.
  rewrite getprop_field; congruence.
Qed.

Lemma histories_of_branches (P : value -> bool) (branches : list value) :
  forallb (BranchHistory P) branches = true ->
  exists hs,
    mapM branch_nodes branches = Ok hs
    /\ Array_flat hs = all_commits branches
    /\ forallb P (all_commits branches) = true.
Proof.
  induction branches as [|b bs IH]; simpl.
  - intros _. exists []. auto.
  - intros H. apply andb_true_iff in H as [Hb Hbs].
    destruct (IH Hbs) as [hs [E1 [E2 E3]]].
    unfold BranchHistory in Hb.
    destruct (branch_commits b) as [l|] eqn:El; [| discriminate].
    exists (VArr l :: hs).
    rewrite (branch_nodes_commits b l El), E1. simpl.
    rewrite E2, forallb_app, Hb, E3. auto.
Qed.

(** The refinement behind the Commit Reconciler's Step 1. *)
Lemma filterDuplicateCommits_dedup (branches : list value) :
  forallb (BranchHistory is_json) branches = true ->
  filterDuplicateCommits (VArr branches)
  = Ok (dedup_structural (all_commits branches)).
Proof.
  intros H. destruct (histories_of_branches _ _ H) as [hs [E1 [E2 E3]]].
  unfold filterDuplicateCommits. simpl. rewrite E1. simpl.
  rewrite E2, Set_from_dedup, dedup_by_map by exact E3.
  apply mapM_parse_stringify. now apply forallb_dedup.
Qed.

(** *** The counting loop on commit records *)

Ltac read_prop := rewrite getprop_object; cbv beta iota delta [rbind].

Lemma authored_by_record (c : value) (username : string) :
  CommitRecord c = true -> authored_by c username = Ok (by_login username c).
Proof.
  unfold CommitRecord, authored_by, by_login. intros H.
  repeat (apply andb_true_iff in H as [H ?]).
  destruct c as [| | | | | | |ps]; try discriminate.
  read_prop.
  destruct (field "author" (VObj ps)) as [| | | | | | |a]; try discriminate.
  read_prop.
  destruct (field "user" (VObj a)) as [| | | | | | |u]; try discriminate;
    try reflexivity.
  simpl truthy. cbv iota. read_prop.
  unfold is_user_or_null in *.
  destruct (field "login" (VObj u)); try discriminate. reflexivity.
Qed.

Lemma round_double_safe (x : Z) : Z.abs x <= 2 ^ 53 -> round_double x = x.
Proof.
  intros H. unfold round_double.
  destruct (Z.leb_spec (Z.abs x) (2 ^ 53)); [reflexivity | lia].
Qed.

Lemma add_count (a : Z) (x : value) :
  is_count x = true ->
  Z.abs (a + match x with VNum n => n | _ => 0 end) <= 2 ^ 53 ->
  js_add (VNum a) (js_or x (VNum 0))
  = Ok (VNum (a + match x with VNum n => n | _ => 0 end)).
Proof.
  destruct x; try discriminate; intros _ Hb;
    unfold js_or; simpl truthy; cbv iota.
  - unfold js_add. simpl. now rewrite round_double_safe.
  - unfold js_add. simpl. now rewrite round_double_safe.
  - destruct (Z.eqb_spec n 0) as [-> | ]; unfold js_add; simpl;
      now rewrite round_double_safe.
Qed.

Lemma abs_sum_nonneg (k : string) (l : list value) : 0 <= abs_sum k l.
Proof.
  induction l as [|c l IH]; simpl; [lia |]. unfold abs_sum in *. lia.
Qed.

Lemma abs_sum_cons (k : string) (c : value) (l : list value) :
  abs_sum k (c :: l) = Z.abs (count_of k c) + abs_sum k l.
Proof. reflexivity. Qed.

Lemma count_loop_records (l : list value) (username : string) :
  forallb CommitRecord l = true ->
  forall a d,
    Z.abs a + abs_sum "additions" l <= 2 ^ 53 ->
    Z.abs d + abs_sum "deletions" l <= 2 ^ 53 ->
    count_loop l username (VNum a) (VNum d)
    = Ok (VNum (a + sum_of "additions" (filter (by_login username) l)),
          VNum (d + sum_of "deletions" (filter (by_login username) l))).
Proof.
  induction l as [|c l IH]; intros H a d Ha Hd.
  - simpl. now rewrite !Z.add_0_r.
  - simpl in H. apply andb_true_iff in H as [Hc Hl].
    rewrite abs_sum_cons in Ha, Hd.
    pose proof (abs_sum_nonneg "additions" l).
    pose proof (abs_sum_nonneg "deletions" l).
    cbn [count_loop filter].
    rewrite (authored_by_record c username Hc).
    cbv beta iota delta [rbind].
    destruct (by_login username c) eqn:E.
    + assert (Hobj : exists ps, c = VObj ps).
      { unfold CommitRecord in Hc. destruct c; try (now exists props);
          simpl in Hc; rewrite ?andb_false_r in Hc; discriminate. }
      destruct Hobj as [ps ->]. rewrite !getprop_object.
      cbv beta iota delta [rbind].
      unfold CommitRecord in Hc.
      repeat (apply andb_true_iff in Hc as [Hc ?]).
      unfold count_of in Ha, Hd.
      rewrite !add_count by (try assumption; lia).
      rewrite (IH Hl) by lia. simpl sum_of. unfold count_of.
      do 3 f_equal; lia.
    + apply IH; [exact Hl | lia | lia].
Qed.

Lemma count_unique_records (l : list value) (username : string) :
  forallb CommitRecord l = true ->
  safe_counts l = true ->
  count_unique l username = Ok (aggregate_spec username l).
Proof.
  intros H Hs. unfold count_unique.
  unfold safe_counts in Hs. apply andb_true_iff in Hs as [Ha Hd].
  apply Z.leb_le in Ha, Hd.
  rewrite (count_loop_records l username H) by (simpl; assumption).
  reflexivity.
Qed.

(** Without a record by the login no addition is performed. *)
Lemma count_loop_no_match (l : list value) (username : string) :
  forallb CommitRecord l = true ->
  (forall c, In c l -> by_login username c = false) ->
  forall a d, count_loop l username a d = Ok (a, d).
Proof.
  induction l as [|c l IH]; intros H Hnone a d; [reflexivity |].
  simpl in H. apply andb_true_iff in H as [Hc Hl].
  cbn [count_loop].
  rewrite (authored_by_record c username Hc).
  cbv beta iota delta [rbind].
  rewrite (Hnone c (or_introl eq_refl)).
  apply IH; [exact Hl |]. intros x Hx. apply Hnone. now right.
Qed.

Lemma abs_sum_filter_le (k : string) (p : value -> bool) (l : list value) :
  abs_sum k (filter p l) <= abs_sum k l.
Proof.
  induction l as [|c l IH]; simpl; [lia |].
  destruct (p c); simpl; unfold abs_sum in *; lia.
Qed.

Lemma abs_sum_dedup_le (k : string) (l : list value) :
  abs_sum k (dedup_structural l) <= abs_sum k l.
Proof.
  unfold dedup_structural. induction l as [|c l IH]; simpl; [lia |].
  pose proof (abs_sum_filter_le k (fun y => negb (value_eqb c y))
                (dedup_by value_eqb l)).
  unfold abs_sum in *. lia.
Qed.

Lemma abs_sum_permutation (k : string) (l l' : list value) :
  Permutation l l' -> abs_sum k l = abs_sum k l'.
Proof.
  induction 1 as [| x l l' _ IH | x y l | l l' l'' _ IH1 _ IH2]; simpl.
  - reflexivity.
  - unfold abs_sum in *. lia.
  - lia.
  - congruence.
Qed.

Lemma abs_sum_bound (k : string) (l : list value) (b : Z) :
  0 <= b ->
  (forall c, In c l -> Z.abs (count_of k c) <= b) ->
  abs_sum k l <= Z.of_nat (List.length l) * b.
Proof.
  intros Hb. induction l as [|c l IH]; intros H.
  - simpl. lia.
  - rewrite abs_sum_cons.
    pose proof (H c (or_introl eq_refl)).
    assert (abs_sum k l <= Z.of_nat (List.length l) * b)
      by (apply IH; intros; apply H; now right).
    cbn [List.length]. lia.
Qed.

(** The counts of a response are safe: [Int]s of at most 100 x 100
    records. *)
Lemma graphql_counts_safe (l : list value) :
  (List.length l <= 100 * 100)%nat ->
  (forall c, In c l ->
             Z.abs (count_of "additions" c) < 2 ^ 31
             /\ Z.abs (count_of "deletions" c) < 2 ^ 31) ->
  safe_counts l = true.
Proof.
  intros Hlen H. unfold safe_counts. apply andb_true_iff.
  assert (Ha : abs_sum "additions" l <= Z.of_nat (List.length l) * 2 ^ 31)
    by (apply abs_sum_bound; [lia |]; intros c Hc;
        destruct (H c Hc); lia).
  assert (Hd : abs_sum "deletions" l <= Z.of_nat (List.length l) * 2 ^ 31)
    by (apply abs_sum_bound; [lia |]; intros c Hc;
        destruct (H c Hc); lia).
  assert (Z.of_nat (List.length l) * 2 ^ 31 <= 2 ^ 53).
  { change (2 ^ 53) with (2 ^ 22 * 2 ^ 31).
    apply Z.mul_le_mono_nonneg_r; [lia |].
    change (2 ^ 22) with 4194304. lia. }
  split; apply Z.leb_le; lia.
Qed.

Lemma safe_counts_dedup (l : list value) :
  safe_counts l = true -> safe_counts (dedup_structural l) = true.
Proof.
  unfold safe_counts. intros H. apply andb_true_iff in H as [Ha Hd].
  apply Z.leb_le in Ha, Hd. apply andb_true_iff.
  pose proof (abs_sum_dedup_le "additions" l).
  pose proof (abs_sum_dedup_le "deletions" l).
  split; apply Z.leb_le; lia.
Qed.

Lemma safe_counts_permutation (l l' : list value) :
  Permutation l l' -> safe_counts l = true -> safe_counts l' = true.
Proof.
  intros Hp. unfold safe_counts.
  now rewrite (abs_sum_permutation "additions" _ _ Hp),
    (abs_sum_permutation "deletions" _ _ Hp).
Qed.

Lemma forallb_impl {A} (P Q : A -> bool) (l : list A) :
  (forall x, P x = true -> Q x = true) ->
  forallb P l = true -> forallb Q l = true.
Proof.
  intros HPQ. rewrite !forallb_forall. auto.
Qed.

Lemma CommitRecord_json (c : value) : CommitRecord c = true -> is_json c = true.
Proof.
  unfold CommitRecord. intros H.
  repeat (apply andb_true_iff in H as [H ?]). exact H.
Qed.

Lemma BranchHistory_json (branches : list value) :
  forallb (BranchHistory CommitRecord) branches = true ->
  forallb (BranchHistory is_json) branches = true.
Proof.
  apply forallb_impl. intros b. unfold BranchHistory.
  destruct (branch_commits b); [| discriminate].
  apply forallb_impl, CommitRecord_json.
Qed.

Lemma unique_records (branches : list value) :
  forallb (BranchHistory CommitRecord) branches = true ->
  forallb CommitRecord (dedup_structural (all_commits branches)) = true.
Proof.
  intros H. apply forallb_dedup.
  now destruct (histories_of_branches _ _ H) as [hs [_ [_ E]]].
Qed.

Lemma sum_filter_permutation (k : string) (p : value -> bool)
  (l l' : list value) :
  Permutation l l' -> sum_of k (filter p l) = sum_of k (filter p l').
Proof.
  induction 1 as [| x l l' _ IH | x y l | l l' l'' _ IH1 _ IH2]; simpl.
  - reflexivity.
  - destruct (p x); simpl; now rewrite IH.
  - destruct (p x), (p y); simpl; lia.
  - congruence.
Qed.

Lemma forallb_permutation {A} (P : A -> bool) (l l' : list A) :
  Permutation l l' -> forallb P l = true -> forallb P l' = true.
Proof.
  intros Hp. rewrite !forallb_forall. intros H x Hx.
  apply H. eapply Permutation_in; [apply Permutation_sym |]; eauto.
Qed.

(** *** Object spread and property update *)

Lemma lookup_set_prop_same (k : string) (v : value)
  (ps : list (string * value)) :
  lookup k (set_prop k v ps) = Some v.
Proof.
  induction ps as [|[k' v'] ps IH]; simpl.
  - now rewrite String.eqb_refl.
  - destruct (String.eqb_spec k k') as [-> | N]; simpl.
    + now rewrite String.eqb_refl.
    + destruct (String.eqb_spec k k'); [contradiction | exact IH].
Qed.

Lemma lookup_set_prop_other (k k' : string) (v : value)
  (ps : list (string * value)) :
  k' <> k -> lookup k' (set_prop k v ps) = lookup k' ps.
Proof.
  intros N. induction ps as [|[k0 v0] ps IH]; simpl.
  - destruct (String.eqb_spec k' k); [contradiction | reflexivity].
  - destruct (String.eqb_spec k k0) as [-> | N0]; simpl.
    + destruct (String.eqb_spec k' k0); [contradiction | reflexivity].
    + now rewrite IH.
Qed.

Lemma set_prop_fresh (k : string) (v : value) (ps : list (string * value)) :
  existsb (fun kv => (k =? fst kv)%string) ps = false ->
  set_prop k v ps = ps ++ [(k, v)].
Proof.
  induction ps as [|[k' v'] ps IH]; simpl; [reflexivity |].
  intros H. apply orb_false_iff in H as [H1 H2].
  rewrite H1. now rewrite (IH H2).
Qed.

Lemma spread_fold_distinct (ps acc : list (string * value)) :
  distinct_keys (acc ++ ps) = true ->
  fold_left (fun a kv => set_prop (fst kv) (snd kv) a) ps acc = acc ++ ps.
Proof.
  revert acc. induction ps as [|[k v] ps IH]; intros acc H; simpl.
  - now rewrite app_nil_r.
  - assert (Hk : existsb (fun kv => (k =? fst kv)%string) acc = false).
    { clear IH. induction acc as [|[k' v'] acc IHa]; simpl in *;
        [reflexivity |].
      apply andb_true_iff in H as [H1 H2].
      rewrite (IHa H2), orb_false_r.
      rewrite existsb_app in H1. simpl in H1.
      apply negb_true_iff in H1.
      apply orb_false_iff in H1 as [_ H1].
      apply orb_false_iff in H1 as [H1 _].
      now rewrite String.eqb_sym. }
    rewrite (set_prop_fresh k v acc Hk), IH; rewrite <- app_assoc;
      [reflexivity | exact H].
Qed.

Lemma spread_distinct (ps : list (string * value)) :
  distinct_keys ps = true -> spread [] (VObj ps) = ps.
Proof.
  intros H. unfold spread. simpl own_properties.
  now rewrite spread_fold_distinct.
Qed.

(** *** Running the fetchers *)

Lemma response_data_response (data : value) :
  response_data (response data) = Ok data.
Proof. reflexivity. Qed.

Lemma fetchRepoMeta_run (net : network) (username reponame : string)
  (res data : value) :
  net [] (meta_request username reponame) = Ok res ->
  response_data res = Ok data ->
  run (fetchRepoMeta username reponame) net
  = (resolveOwner data, [meta_request username reponame]).
Proof.
  intros Hnet Hres.
  unfold run, fetchRepoMeta, await, retryer, lift.
  fold (meta_request username reponame).
  now rewrite Hnet, Hres.
Qed.

(** The Owner Resolver on a lookup result whose sibling namespace is null
    and whose own namespace holds a public repository. *)
Lemma resolveOwner_owned (data : value) (ns sibling : string)
  (repo : list (string * value)) (totalCount : value) :
  (ns = "user" /\ sibling = "organization"
   \/ ns = "organization" /\ sibling = "user") ->
  field sibling data = VNull ->
  field "repository" (field ns data) = VObj repo ->
  truthy (field "isPrivate" (VObj repo)) = false ->
  getprop (field "stargazers" (VObj repo)) "totalCount" = Ok totalCount ->
  resolveOwner data
  = Ok (VObj (set_prop "starCount" totalCount (spread [] (VObj repo)))).
Proof.
  intros Hns Hsib Hrepo Hpriv Hstars.
  destruct data as [| | | | | | |ps]; try discriminate.
  unfold resolveOwner. rewrite !getprop_object.
  cbv beta iota delta [rbind].
  destruct (field ns (VObj ps)) as [| | | | | | |owner] eqn:Eo;
    try discriminate.
  destruct Hns as [[-> ->] | [-> ->]]; rewrite Eo, Hsib;
    simpl truthy; simpl negb; simpl andb; cbv iota;
    unfold js_and; simpl truthy; cbv iota;
    rewrite getprop_object; cbv beta iota delta [rbind];
    rewrite Hrepo; simpl truthy; simpl negb; cbv iota;
    rewrite getprop_object; cbv beta iota delta [rbind];
    rewrite Hpriv, getprop_object; cbv beta iota delta [rbind];
    rewrite Hstars; reflexivity.
Qed.

Lemma getprop_truthy (v : value) (k : string) :
  truthy v = true -> k <> "length" -> getprop v k = Ok (field k v).
Proof.
  intros Ht Hk.
  destruct v; try discriminate; simpl; try reflexivity;
    destruct (String.eqb_spec k "length"); congruence.
Qed.

Lemma truthy_not_null (v : value) : truthy v = true -> is_null v = false.
Proof. destruct v; simpl; congruence. Qed.

(** Neither namespace is there. *)
Lemma resolveOwner_none (data : value) :
  is_object data = true ->
  truthy (field "user" data) = false ->
  truthy (field "organization" data) = false ->
  resolveOwner data = Throw (Error "Not found").
Proof.
  destruct data as [| | | | | | |ps]; try discriminate. intros _ Hu Ho.
  unfold resolveOwner. rewrite !getprop_object.
  cbv beta iota delta [rbind]. now rewrite Hu, Ho.
Qed.

(** Neither [isUser] nor [isOrg] holds although a namespace is there. *)
Lemma resolveOwner_unexpected (data : value) :
  is_object data = true ->
  truthy (field "user" data) = true \/ truthy (field "organization" data) = true ->
  is_null (field "organization" data) = false
  \/ truthy (field "user" data) = false ->
  is_null (field "user" data) = false
  \/ truthy (field "organization" data) = false ->
  resolveOwner data = Throw (Error "Unexpected behavior").
Proof.
  destruct data as [| | | | | | |ps]; try discriminate.
  intros _ Hsome HnotUser HnotOrg.
  unfold resolveOwner. rewrite !getprop_object.
  cbv beta iota delta [rbind]. unfold js_and.
  destruct (truthy (field "user" (VObj ps))) eqn:Tu,
    (truthy (field "organization" (VObj ps))) eqn:To,
    (is_null (field "user" (VObj ps))) eqn:Nu,
    (is_null (field "organization" (VObj ps))) eqn:No;
    simpl; rewrite ?Tu, ?To; try reflexivity;
    try (destruct Hsome; discriminate);
    try (destruct HnotUser; discriminate);
    try (destruct HnotOrg; discriminate);
    try (apply truthy_not_null in Tu; congruence);
    try (apply truthy_not_null in To; congruence).
Qed.

(** The sibling namespace is null and the repository of the own namespace
    is null or private. *)
Lemma resolveOwner_unavailable (data : value) (ns sibling : string) :
  (ns = "user" /\ sibling = "organization"
   \/ ns = "organization" /\ sibling = "user") ->
  field sibling data = VNull ->
  truthy (field ns data) = true ->
  unavailable (field "repository" (field ns data)) = true ->
  resolveOwner data
  = Throw (Error (if (ns =? "user")%string
                  then "User Repository Not found"
                  else "Organization Repository Not found")).
Proof.
  intros Hns Hsib Hown Hun.
  destruct data as [| | | | | | |ps]; try discriminate.
  unfold resolveOwner. rewrite !getprop_object.
  cbv beta iota delta [rbind]. unfold js_and, unavailable in *.
  destruct Hns as [[-> ->] | [-> ->]];
    remember (field "user" (VObj ps)) as u eqn:Eu;
    remember (field "organization" (VObj ps)) as o eqn:Eo;
    clear Eu Eo; subst; pose proof (truthy_not_null _ Hown) as Hnn;
    rewrite Hown; simpl; rewrite ?Hnn, ?Hown; simpl;
    (rewrite getprop_truthy; [| exact Hown | discriminate]);
    cbv beta iota delta [rbind];
    (destruct (truthy (field "repository" _)) eqn:Tr; simpl negb; cbv iota;
     [| reflexivity]);
    (rewrite getprop_truthy; [| exact Tr | discriminate]);
    cbv beta iota delta [rbind];
    simpl in Hun; rewrite Hun; reflexivity.
Qed.

(** The shapes of a namespace of an OwnerLookupResult. *)
Lemma namespace_cases (n : value) :
  is_namespace n = true ->
  n = VNull
  \/ (truthy n = true /\ is_null n = false
      /\ (unavailable (field "repository" n) = true
          \/ exists repo stargazers,
               field "repository" n = VObj repo
               /\ truthy (field "isPrivate" (VObj repo)) = false
               /\ field "stargazers" (VObj repo) = VObj stargazers)).
Proof.
  destruct n as [| | | | | | |np]; try discriminate; [now left |].
  intros H. right. split; [reflexivity | split; [reflexivity |]].
  unfold is_namespace in H.
  destruct (field "repository" (VObj np)) as [| | | | | | |repo] eqn:Er;
    try discriminate; try (left; reflexivity).
  unfold is_repository in H. apply andb_true_iff in H as [_ H].
  destruct (truthy (field "isPrivate" (VObj repo))) eqn:Ep.
  - left. unfold unavailable. now rewrite Ep, orb_true_r.
  - right. change (is_object (field "stargazers" (VObj repo)) = true) in H.
    destruct (field "stargazers" (VObj repo)) as [| | | | | | |sg] eqn:Es;
      try discriminate.
    exists repo, sg. auto.
Qed.

Lemma OwnerLookupResult_cases (data : value) :
  OwnerLookupResult data = true ->
  is_object data = true
  /\ is_namespace (field "user" data) = true
  /\ is_namespace (field "organization" data) = true.
Proof.
  destruct data as [| | | | | | |ps]; try discriminate.
  unfold OwnerLookupResult. simpl field.
  destruct (lookup "user" ps), (lookup "organization" ps); try discriminate.
  intros H. apply andb_true_iff in H as [Hu Ho]. auto.
Qed.

(** The refinement behind the Owner Resolver: on a lookup result the
    resolver throws the error of the kind that the specification names, and
    returns a record when no kind applies. *)
Lemma resolveOwner_kind (data : value) :
  OwnerLookupResult data = true ->
  match owner_failure_kind data with
  | Some k => resolveOwner data = Throw (thrown k)
  | None => exists record, resolveOwner data = Ok record
  end.
Proof.
  intros H. destruct (OwnerLookupResult_cases data H) as [Hobj [Hu Ho]].
  unfold owner_failure_kind.
  destruct (namespace_cases _ Hu) as [Eu | [Tu [Nu Cu]]];
    destruct (namespace_cases _ Ho) as [Eo | [To [No Co]]].
  - rewrite Eu, Eo. simpl. apply resolveOwner_none; auto.
    + now rewrite Eu.
    + now rewrite Eo.
  - rewrite Eu, No. simpl is_null. cbv iota.
    destruct Co as [Co | [repo [sg [Er [Ep Es]]]]].
    + rewrite Co.
      apply (resolveOwner_unavailable data "organization" "user"); auto.
    + rewrite Er. unfold unavailable. simpl truthy at 1. simpl negb.
      rewrite Ep. simpl orb. cbv iota. eexists.
      apply (resolveOwner_owned data "organization" "user" repo); auto.
      rewrite Es. reflexivity.
  - rewrite Eo, Nu. simpl is_null. cbv iota.
    destruct Cu as [Cu | [repo [sg [Er [Ep Es]]]]].
    + rewrite Cu.
      apply (resolveOwner_unavailable data "user" "organization"); auto.
    + rewrite Er. unfold unavailable. simpl truthy at 1. simpl negb.
      rewrite Ep. simpl orb. cbv iota. eexists.
      apply (resolveOwner_owned data "user" "organization" repo); auto.
      rewrite Es. reflexivity.
  - rewrite Nu, No. apply resolveOwner_unexpected; auto.
Qed.

(** *** The errors of the Commit Reconciler *)

Lemma getprop_throws (v : value) (k : string) (e : error) :
  getprop v k = Throw e -> e = TypeError.
Proof. destruct v; simpl; congruence. Qed.

Lemma mapM_throws {A B} (f : A -> result B) (P : error -> Prop)
  (l : list A) (e : error) :
  (forall x e', f x = Throw e' -> P e') -> mapM f l = Throw e -> P e.
Proof.
  intros Hf. induction l as [|x l IH]; simpl; [discriminate |].
  destruct (f x) as [y|e'] eqn:E; simpl.
  - destruct (mapM f l); simpl; [discriminate |].
    intros [= <-]. now apply IH.
  - intros [= <-]. now apply (Hf x).
Qed.

Lemma branch_nodes_throws (node : value) (e : error) :
  branch_nodes node = Throw e -> runtime_error e.
Proof.
  unfold branch_nodes, rbind. intros H. left.
  destruct (getprop node "target") as [t|e1] eqn:E1;
    [| apply getprop_throws in E1; congruence].
  destruct (getprop t "history") as [h|e2] eqn:E2;
    [| apply getprop_throws in E2; congruence].
  now apply getprop_throws in H.
Qed.

Lemma JSON_parse_throws (t : option string) (e : error) :
  JSON_parse t = Throw e -> runtime_error e.
Proof.
  unfold JSON_parse. intros H. right.
  destruct t as [s|]; [| congruence].
  destruct (parse_value _ s) as [[v [|c r]]|]; congruence.
Qed.

Lemma filterDuplicateCommits_throws (branchesCommits : value) (e : error) :
  filterDuplicateCommits branchesCommits = Throw e -> runtime_error e.
Proof.
  unfold filterDuplicateCommits, rbind, Array_map.
  destruct branchesCommits as [| | | | | |l|];
    try (intros [= <-]; now left).
  destruct (mapM branch_nodes l) as [hs|e'] eqn:E.
  - apply mapM_throws. intros x. apply JSON_parse_throws.
  - intros [= <-]. revert E. apply mapM_throws.
    intros x. apply branch_nodes_throws.
Qed.

Lemma authored_by_throws (c : value) (username : string) (e : error) :
  authored_by c username = Throw e -> runtime_error e.
Proof.
  unfold authored_by, rbind. intros H. left.
  destruct (getprop c "author") as [a|e1] eqn:E1;
    [| apply getprop_throws in E1; congruence].
  destruct (getprop a "user") as [u|e2] eqn:E2;
    [| apply getprop_throws in E2; congruence].
  destruct (truthy u); [| discriminate].
  destruct (getprop u "login") as [l|e3] eqn:E3;
    [| apply getprop_throws in E3; congruence].
  destruct l; simpl in H; congruence.
Qed.

Lemma ToString_array (l : list value) :
  ToString (VArr l) = (let? parts := join_parts l in Ok (join_comma parts)).
Proof. reflexivity. Qed.

Lemma ToString_throws (v : value) (e : error) :
  ToString v = Throw e -> e = TypeError.
Proof.
  revert e.
  induction v as [| |b|n| |s|l IH|ps IH] using value_deep_ind; intros e;
    try (simpl; congruence).
  - destruct b; simpl; congruence.
  - rewrite ToString_array. unfold rbind at 1.
    assert (Hparts : forall e', join_parts l = Throw e' -> e' = TypeError).
    { induction IH as [|x l Hx Hl IHl]; intros e'; cbn [join_parts];
        [discriminate |].
      unfold rbind.
      destruct (match x with
                | VUndef | VNull => Ok EmptyString
                | _ => ToString x
                end) as [t|e1] eqn:E1.
      - destruct (join_parts l) as [r|e2] eqn:E2; [discriminate |].
        intros [= <-]. now apply IHl.
      - intros [= <-]. destruct x; try discriminate; now apply Hx. }
    destruct (join_parts l) as [r|e'] eqn:E; [discriminate |].
    intros [= <-]. now apply Hparts.
  - simpl. destruct (lookup "toString" ps); congruence.
Qed.

Lemma ToPrimitive_throws (v : value) (e : error) :
  ToPrimitive v = Throw e -> e = TypeError.
Proof.
  destruct v; try discriminate; unfold ToPrimitive, rbind;
    destruct (ToString _) eqn:E; try discriminate;
    intros [= <-]; now apply ToString_throws in E.
Qed.

Lemma js_add_throws (a b : value) (e : error) :
  js_add a b = Throw e -> e = TypeError.
Proof.
  unfold js_add, rbind.
  destruct (ToPrimitive a) as [pa|e1] eqn:E1;
    [| intros [= <-]; now apply ToPrimitive_throws in E1].
  destruct (ToPrimitive b) as [pb|e2] eqn:E2;
    [| intros [= <-]; now apply ToPrimitive_throws in E2].
  destruct pa, pb; try discriminate;
    repeat match goal with
           | |- context [match ToString ?x with _ => _ end] =>
               let E := fresh "E" in
               destruct (ToString x) eqn:E;
               [| intros [= <-]; now apply ToString_throws in E]
           end;
    discriminate.
Qed.

Lemma count_loop_throws (l : list value) (username : string) (e : error) :
  forall a d, count_loop l username a d = Throw e -> runtime_error e.
Proof.
  induction l as [|c l IH]; simpl; intros a d; [discriminate |].
  unfold rbind.
  destruct (authored_by c username) as [hit|e1] eqn:E1;
    [| intros [= <-]; now apply (authored_by_throws c username)].
  destruct hit; [| apply IH].
  destruct (getprop c "additions") as [x|e2] eqn:E2;
    [| intros [= <-]; left; now apply getprop_throws in E2].
  destruct (js_add a _) as [a'|e3] eqn:E3;
    [| intros [= <-]; left; now apply js_add_throws in E3].
  destruct (getprop c "deletions") as [y|e4] eqn:E4;
    [| intros [= <-]; left; now apply getprop_throws in E4].
  destruct (js_add d _) as [d'|e5] eqn:E5;
    [| intros [= <-]; left; now apply js_add_throws in E5].
  apply IH.
Qed.

Lemma totalAdditionsAndDeletionsByUser_throws (branchesCommits : value)
  (username : string) (e : error) :
  totalAdditionsAndDeletionsByUser branchesCommits username = Throw e ->
  runtime_error e.
Proof.
  unfold totalAdditionsAndDeletionsByUser, count_unique, rbind.
  destruct (filterDuplicateCommits branchesCommits) as [u|e'] eqn:E.
  - destruct (count_loop u username (VNum 0) (VNum 0)) as [t|e''] eqn:E';
      [discriminate |].
    intros [= <-]. now apply (count_loop_throws u username e'' _ _ E').
  - intros [= <-]. now apply (filterDuplicateCommits_throws branchesCommits).
Qed.

(** *** The commit retrieval, request by request *)

Section FetchRepoCommits.
Variables (net : network) (log : list payload).
Variables (username reponame : string).
Variables (res_id data_id : value).
Hypothesis identity_answer : net log (id_request username) = Ok res_id.
Hypothesis identity_body : response_data res_id = Ok data_id.
Hypothesis identity_object : is_object data_id = true.

Lemma fetchRepoCommits_no_identity :
  truthy (field "user" data_id) = false ->
  fetchRepoCommits username reponame net log
  = (Throw (Error "Not found"), log ++ [id_request username]).
Proof.
  intros Hu. destruct data_id as [| | | | | | |ps]; try discriminate.
  unfold fetchRepoCommits, await, retryer, lift, throw.
  fold (id_request username).
  rewrite identity_answer, identity_body, getprop_object, Hu.
  reflexivity.
Qed.

Variables (res data : value).
Hypothesis identity_found : truthy (field "user" data_id) = true.
Hypothesis commits_answer :
  net (log ++ [id_request username])
    (commits_request username reponame (field "id" (field "user" data_id)))
  = Ok res.
Hypothesis commits_body : response_data res = Ok data.
Hypothesis commits_object : is_object data = true.

Let log2 : list payload :=
  (log ++ [id_request username])
  ++ [commits_request username reponame (field "id" (field "user" data_id))].

Ltac to_second_answer :=
  destruct data_id as [| | | | | | |ps]; try discriminate;
  destruct data as [| | | | | | |qs]; try discriminate;
  unfold fetchRepoCommits, await, retryer, lift, throw;
  fold (id_request username);
  rewrite identity_answer, identity_body, getprop_object, identity_found;
  cbv beta iota delta [negb];
  rewrite (getprop_truthy _ "id" identity_found) by discriminate;
  fold (commits_request username reponame
          (field "id" (field "user" (VObj ps))));
  rewrite commits_answer, commits_body, getprop_object.

Lemma fetchRepoCommits_no_refs :
  truthy (field "repository" data) = false
  \/ truthy (field "refs" (field "repository" data)) = false ->
  fetchRepoCommits username reponame net log
  = (Throw (Error "Repository or refs not found"), log2).
Proof.
  intros Habsent. to_second_answer.
  destruct (truthy (field "repository" (VObj qs))) eqn:Tr;
    cbv beta iota delta [negb]; [| reflexivity].
  rewrite (getprop_truthy _ "refs" Tr) by discriminate.
  destruct Habsent as [H | H]; [discriminate | rewrite H]. reflexivity.
Qed.

Lemma fetchRepoCommits_nodes (nodes : list value) :
  truthy (field "repository" data) = true ->
  truthy (field "refs" (field "repository" data)) = true ->
  field "nodes" (field "refs" (field "repository" data)) = VArr nodes ->
  fetchRepoCommits username reponame net log
  = (match nodes with
     | [] => Throw (Error "No commits found")
     | _ :: _ => totalAdditionsAndDeletionsByUser (VArr nodes) username
     end, log2).
Proof.
  intros Tr Tf Hn. to_second_answer.
  rewrite Tr. cbv beta iota delta [negb].
  rewrite (getprop_truthy _ "refs" Tr) by discriminate.
  rewrite Tf. cbv beta iota delta [negb].
  rewrite (getprop_truthy _ "nodes" Tf) by discriminate.
  rewrite Hn. destruct nodes; reflexivity.
Qed.
End FetchRepoCommits.

(** *** Parameter validation *)

Lemma fetchRepo_missing (net : network) (log : list payload)
  (username reponame : string) :
  missing_params username reponame <> [] ->
  fetchRepo username reponame net log
  = (Throw (MissingParamError (missing_params username reponame) urlExample),
     log).
Proof.
  unfold fetchRepo, missing_params. cbv beta iota delta [truthy].
  destruct (username =? "")%string, (reponame =? "")%string; simpl;
    intros H; try reflexivity. exfalso. now apply H.
Qed.

Lemma fetchRepo_valid (net : network) (log : list payload)
  (username reponame : string) :
  missing_params username reponame = [] ->
  fetchRepo username reponame net log
  = await (fetchRepoMeta username reponame)
      (fun repoMeta =>
         await (fetchRepoCommits username reponame)
           (fun repoCommits =>
              resolve (VObj (spread (spread [] repoMeta) repoCommits))))
      net log.
Proof.
  unfold fetchRepo, missing_params. cbv beta iota delta [truthy].
  destruct (username =? "")%string, (reponame =? "")%string; simpl;
    intros H; try discriminate. reflexivity.
Qed.

(** *** The failure kinds of a scenario *)

Lemma fetchRepoMeta_scenario (s : scenario) (log : list payload)
  (username reponame : string) :
  fetchRepoMeta username reponame (net_of s) log
  = (resolveOwner (meta_data s), log ++ [meta_request username reponame]).
Proof. reflexivity. Qed.

Lemma is_identity_cases (d : value) :
  is_identity d = true ->
  is_object d = true
  /\ truthy (field "user" d) = negb (is_null (field "user" d)).
Proof.
  unfold is_identity. intros H. apply andb_true_iff in H as [Ho Hu].
  split; [exact Ho |]. destruct (field "user" d); try discriminate; reflexivity.
Qed.

Lemma fetchRepoCommits_kind (s : scenario) (log : list payload)
  (username reponame : string) (k : kind) :
  is_identity (identity_data s) = true ->
  is_commits (commits_data s) = true ->
  commits_failure_kind (identity_data s) (commits_data s) = Some k ->
  fst (fetchRepoCommits username reponame (net_of s) log) = Throw (thrown k).
Proof.
  intros Hid Hc. destruct (is_identity_cases _ Hid) as [Hio Hiu].
  unfold commits_failure_kind.
  destruct (is_null (field "user" (identity_data s))) eqn:Nu.
  - intros [= <-].
    rewrite (fetchRepoCommits_no_identity (net_of s) log username reponame
               (response (identity_data s)) (identity_data s));
      auto.
  - unfold is_commits in Hc. apply andb_true_iff in Hc as [Hco Hcr].
    destruct (field "repository" (commits_data s))
      as [| | | | | | |repo] eqn:Er; try discriminate.
    + intros [= <-].
      rewrite (fetchRepoCommits_no_refs (net_of s) log username reponame
                 (response (identity_data s)) (identity_data s)
                 eq_refl eq_refl Hio
                 (response (commits_data s)) (commits_data s));
        auto. rewrite Er. now left.
    + unfold is_refs in Hcr.
      destruct (field "refs" (VObj repo)) as [| | | | | | |refs] eqn:Ef;
        try discriminate.
      * intros [= <-].
        rewrite (fetchRepoCommits_no_refs (net_of s) log username reponame
                   (response (identity_data s)) (identity_data s)
                   eq_refl eq_refl Hio
                   (response (commits_data s)) (commits_data s));
          auto. rewrite Er, Ef. now right.
      * destruct (field "nodes" (VObj refs)) as [| | | | | | nodes|] eqn:En;
          try discriminate.
        simpl orb. cbv iota. destruct nodes as [|b bs]; [| discriminate].
        intros [= <-].
        rewrite (fetchRepoCommits_nodes (net_of s) log username reponame
                   (response (identity_data s)) (identity_data s)
                   eq_refl eq_refl Hio
                   (response (commits_data s)) (commits_data s)
                   ltac:(now rewrite Hiu) eq_refl eq_refl Hco []);
          auto; rewrite Er; auto; now rewrite Ef.
Qed.

(** In a well-typed scenario [fetchRepo] throws the error of the kind of
    its failure. *)
Lemma fetchRepo_kind (s : scenario) (username reponame : string) (k : kind) :
  well_typed s = true ->
  failure_kind username reponame s = Some k ->
  outcome username reponame s = Throw (thrown k).
Proof.
  unfold well_typed, failure_kind, outcome, run. intros Hs.
  apply andb_true_iff in Hs as [Hs Hc].
  apply andb_true_iff in Hs as [Hm Hi].
  destruct (missing_params username reponame) as [|p l] eqn:Ep.
  - rewrite (fetchRepo_valid _ _ _ _ Ep). unfold await at 1.
    rewrite fetchRepoMeta_scenario.
    pose proof (resolveOwner_kind _ Hm) as K.
    destruct (owner_failure_kind (meta_data s)) as [k'|].
    + intros [= <-]. now rewrite K.
    + destruct K as [record ->]. intros Hk. unfold await.
      pose proof (fetchRepoCommits_kind s
                    ([] ++ [meta_request username reponame])
                    username reponame k Hi Hc Hk) as F.
      destruct (fetchRepoCommits _ _ _ _) as [[c|e] log']; simpl in *;
        congruence.
  - intros [= <-]. rewrite fetchRepo_missing; [| congruence].
    now rewrite Ep.
Qed.

Lemma thrown_eq (k1 k2 : kind) :
  thrown k1 = thrown k2
  <-> k1 = k2
      \/ (k1 = NotFound_owner /\ k2 = NotFound_identity)
      \/ (k1 = NotFound_identity /\ k2 = NotFound_owner).
Proof.
  split.
  - destruct k1, k2; simpl; intros H; try discriminate H;
      try (left; reflexivity); try (right; left; split; reflexivity);
      try (right; right; split; reflexivity).
    injection H as ->. now left.
  - intros [-> | [[-> ->] | [-> ->]]]; reflexivity.
Qed.

End RepoFacts.

(** * The embedding on the examples of the specification *)

Module Examples.

Example lower_TestUser : toLowerCase (VStr "TestUser") = Ok "testuser".
Proof. reflexivity. Qed.

Example parse_stringify_commit :
  JSON_parse (JSON_stringify (commit "abc123" "testuser" 10 5))
  = Ok (commit "abc123" "testuser" 10 5).
Proof. vm_compute. reflexivity. Qed.

(** Cross-branch dedup: the shared record survives once, the record with
    the same hash and other counts survives beside it. *)
Example dedup_shared_branches :
  filterDuplicateCommits (VArr shared_branches)
  = Ok [commit "abc123" "testuser" 10 5; commit "def456" "TestUser" 15 3;
        commit "abc123" "testuser" 7 5].
Proof. vm_compute. reflexivity. Qed.

(** A commit without user is skipped, a commit without counts adds 0. *)
Example unlinked_author_and_missing_counts :
  totalAdditionsAndDeletionsByUser
    (VArr [branch "main"
             [VObj [("oid", VStr "a"); ("author", VObj [("user", VNull)]);
                    ("additions", VNum 4); ("deletions", VNum 4)];
              VObj [("oid", VStr "b");
                    ("author",
                     VObj [("user", VObj [("id", VStr "1");
                                          ("login", VStr "TESTUSER")])])];
              commit "c" "testuser" 2 1]])
    "testuser"
  = Ok (VObj [("additionsCount", VNum 2); ("deletionsCount", VNum 1)]).
Proof. vm_compute. reflexivity. Qed.

(** A record without [author], as the commit query of the file asks for
    it, makes the loop throw. *)
Example record_without_author :
  totalAdditionsAndDeletionsByUser
    (VArr [branch "main"
             [VObj [("oid", VStr "a"); ("additions", VNum 4);
                    ("deletions", VNum 4)]]])
    "testuser"
  = Throw TypeError.
Proof. vm_compute. reflexivity. Qed.

Example both_null_rejected :
  resolveOwner (VObj [("user", VNull); ("organization", VNull)])
  = Throw (Error "Not found").
Proof. reflexivity. Qed.

Example both_populated_rejected :
  resolveOwner (VObj [("user", VObj [("repository", tlsscanner)]);
                      ("organization", VObj [("repository", tlsscanner)])])
  = Throw (Error "Unexpected behavior").
Proof. reflexivity. Qed.

Example organization_repository_null :
  resolveOwner (organization_owned VNull)
  = Throw (Error "Organization Repository Not found").
Proof. reflexivity. Qed.

Example empty_ref_list :
  run (fetchRepoCommits "testuser" "tlsscanner")
    (net_of {| meta_data := user_owned tlsscanner;
               identity_data := VObj [("user", VObj [("id", VStr "1")])];
               commits_data :=
                 VObj [("repository",
                        VObj [("refs", VObj [("nodes", VArr [])])])] |})
  = (Throw (Error "No commits found"),
     [id_request "testuser";
      commits_request "testuser" "tlsscanner" (VStr "1")]).
Proof. reflexivity. Qed.

End Examples.

(** * The properties of the specification *)

Import JSFacts RepoFacts.

(** C1, as the specification states it, fails: a record that appears in
    two branch histories with every field equal, the fields in another
    order, is counted twice (the totals are 20 and 10 for one commit of 10
    additions and 5 deletions). *)
Lemma same_fields_other_order_counted_twice :
  CommitRecord (commit "abc123" "testuser" 10 5) = true
  /\ CommitRecord (commit_reordered "abc123" "testuser" 10 5) = true
  /\ same_fields (commit "abc123" "testuser" 10 5)
       (commit_reordered "abc123" "testuser" 10 5) = true
  /\ same_fields (commit_reordered "abc123" "testuser" 10 5)
       (commit "abc123" "testuser" 10 5) = true
  /\ filterDuplicateCommits
       (VArr [branch "main" [commit "abc123" "testuser" 10 5];
              branch "dev" [commit_reordered "abc123" "testuser" 10 5]])
     = Ok [commit "abc123" "testuser" 10 5;
           commit_reordered "abc123" "testuser" 10 5]
  /\ totalAdditionsAndDeletionsByUser
       (VArr [branch "main" [commit "abc123" "testuser" 10 5];
              branch "dev" [commit_reordered "abc123" "testuser" 10 5]])
       "testuser"
     = Ok (VObj [("additionsCount", VNum 20); ("deletionsCount", VNum 10)]).
Proof. repeat split; vm_compute; reflexivity. Qed.

(** C1, amended.  The Commit Reconciler deduplicates by the serialized
    record, that is by full structural equality with the fields in the order
    of the response: on branch histories of commit records (with counts that
    doubles add exactly) the records that are counted are the records of the
    histories, each one once.  A record that appears in two branch histories
    contributes to the totals once, and two records that differ in any field
    (the same [oid] with another author or other counts) are both retained
    and both counted. *)
Theorem reconciler_counts_each_record_once (branches : list value)
  (username : string) :
  forallb (BranchHistory CommitRecord) branches = true ->
  safe_counts (all_commits branches) = true ->
  exists uniqueCommits,
    filterDuplicateCommits (VArr branches) = Ok uniqueCommits
    /\ NoDup uniqueCommits
    /\ (forall c, In c uniqueCommits <-> In c (all_commits branches))
    /\ totalAdditionsAndDeletionsByUser (VArr branches) username
       = Ok (VObj
               [("additionsCount",
                 VNum (sum_of "additions"
                         (filter (by_login username) uniqueCommits)));
                ("deletionsCount",
                 VNum (sum_of "deletions"
                         (filter (by_login username) uniqueCommits)))]).
Proof.
  intros H Hs. exists (dedup_structural (all_commits branches)).
  pose proof (filterDuplicateCommits_dedup branches (BranchHistory_json _ H))
    as E.
  split; [exact E |].
  split; [apply dedup_structural_NoDup |].
  split; [intros c; apply dedup_structural_In |].
  unfold totalAdditionsAndDeletionsByUser. rewrite E.
  cbv beta iota delta [rbind].
  now rewrite (count_unique_records _ username (unique_records _ H)
                 (safe_counts_dedup _ Hs)).
Qed.

Lemma reconciler_counts_each_record_once_witness :
  exists uniqueCommits,
    filterDuplicateCommits (VArr shared_branches) = Ok uniqueCommits
    /\ NoDup uniqueCommits
    /\ (forall c, In c uniqueCommits <-> In c (all_commits shared_branches))
    /\ totalAdditionsAndDeletionsByUser (VArr shared_branches) "testuser"
       = Ok (VObj
               [("additionsCount",
                 VNum (sum_of "additions"
                         (filter (by_login "testuser") uniqueCommits)));
                ("deletionsCount",
                 VNum (sum_of "deletions"
                         (filter (by_login "testuser") uniqueCommits)))]).
Proof.
  apply (reconciler_counts_each_record_once shared_branches "testuser");
    reflexivity.
Defined.

(** C2.  For every sequence of branch histories of commit records and every
    requested login, the aggregate is the sum of the additions and the sum of
    the deletions over exactly those deduplicated records whose
    [author.user] is not null and whose login equals the requested login up
    to case ([by_login]); a record without user is skipped, and a missing
    count is zero ([count_of]).  The counts are such that doubles add them
    exactly ([safe_counts], which the [Int]s of a response satisfy). *)
Theorem totalAdditionsAndDeletionsByUser_aggregate
  (branches : list value) (username : string) :
  forallb (BranchHistory CommitRecord) branches = true ->
  safe_counts (all_commits branches) = true ->
  totalAdditionsAndDeletionsByUser (VArr branches) username
  = Ok (VObj
          [("additionsCount",
            VNum (sum_of "additions"
                    (filter (by_login username)
                       (dedup_structural (all_commits branches)))));
           ("deletionsCount",
            VNum (sum_of "deletions"
                    (filter (by_login username)
                       (dedup_structural (all_commits branches)))))]).
Proof.
  intros H Hs. unfold totalAdditionsAndDeletionsByUser.
  rewrite (filterDuplicateCommits_dedup branches (BranchHistory_json _ H)).
  cbv beta iota delta [rbind].
  now rewrite (count_unique_records _ username (unique_records _ H)
                 (safe_counts_dedup _ Hs)).
Qed.

Lemma totalAdditionsAndDeletionsByUser_aggregate_witness :
  totalAdditionsAndDeletionsByUser (VArr shared_branches) "testuser"
  = Ok (VObj [("additionsCount", VNum 32); ("deletionsCount", VNum 13)]).
Proof.
  rewrite (totalAdditionsAndDeletionsByUser_aggregate shared_branches
             "testuser"); reflexivity.
Defined.

(** C3.  In the end-to-end example (two branches, one commit each,
    [{additions:10,deletions:5}] and [{additions:15,deletions:3}], both by
    the requesting user, metadata with [stargazers.totalCount] 0),
    [fetchRepo] issues its three requests and returns one flat record, the
    fields of the metadata result followed by those of the commit-stats
    result.  The record has [starCount] 0 and carries the sums 25 and 8 under
    the names [additionsCount] and [deletionsCount]: it has no field
    [totalAdditions] and no field [totalDeletions]. *)
Theorem fetchRepo_end_to_end :
  exists repoMeta repoCommits record,
    resolveOwner (meta_data end_to_end) = Ok repoMeta
    /\ fst (fetchRepoCommits "testuser" "tlsscanner" (net_of end_to_end)
              [meta_request "testuser" "tlsscanner"]) = Ok repoCommits
    /\ run (fetchRepo "testuser" "tlsscanner") (net_of end_to_end)
       = (Ok record,
          [meta_request "testuser" "tlsscanner";
           id_request "testuser";
           commits_request "testuser" "tlsscanner" (VStr "1")])
    /\ record = VObj (spread (spread [] repoMeta) repoCommits)
    /\ record
       = VObj [("name", VStr "tlsscanner");
               ("stargazers", VObj [("totalCount", VNum 0)]);
               ("description", VStr "");
               ("primaryLanguage",
                VObj [("color", VStr "#"); ("id", VStr "");
                      ("name", VStr "")]);
               ("forkCount", VNum 0);
               ("starCount", VNum 0);
               ("additionsCount", VNum 25);
               ("deletionsCount", VNum 8)]
    /\ field "totalAdditions" record = VUndef
    /\ field "totalDeletions" record = VUndef.
Proof.
  do 3 eexists. repeat split; vm_compute; reflexivity.
Qed.

(** C4.  For every metadata response in which exactly one of [user] and
    [organization] is non-null and its nested repository is present and not
    private, the Owner Resolver returns the fields of that repository
    together with a [starCount] field equal to the repository's
    [stargazers.totalCount]; the same holds for the user-owned and for the
    organization-owned response. *)
Theorem resolveOwner_returns_repository (data : value)
  (repo : list (string * value)) (totalCount : value) :
  (field "organization" data = VNull
   /\ field "repository" (field "user" data) = VObj repo)
  \/ (field "user" data = VNull
      /\ field "repository" (field "organization" data) = VObj repo) ->
  distinct_keys repo = true ->
  truthy (field "isPrivate" (VObj repo)) = false ->
  getprop (field "stargazers" (VObj repo)) "totalCount" = Ok totalCount ->
  exists fields,
    resolveOwner data = Ok (VObj fields)
    /\ lookup "starCount" fields = Some totalCount
    /\ (forall k, k <> "starCount" -> lookup k fields = lookup k repo).
Proof.
  intros Howner Hkeys Hpriv Hstars.
  exists (set_prop "starCount" totalCount repo).
  split; [| split].
  - rewrite <- (spread_distinct repo Hkeys) at 1.
    destruct Howner as [[Hsib Hrepo] | [Hsib Hrepo]].
    + apply (resolveOwner_owned data "user" "organization"); auto.
    + apply (resolveOwner_owned data "organization" "user"); auto.
  - apply lookup_set_prop_same.
  - intros k Hk. now apply lookup_set_prop_other.
Qed.

Lemma resolveOwner_returns_repository_witness :
  (exists fields,
     resolveOwner (user_owned tlsscanner) = Ok (VObj fields)
     /\ lookup "starCount" fields = Some (VNum 0)
     /\ (forall k, k <> "starCount" ->
         lookup k fields = lookup k (own_properties tlsscanner)))
  /\ (exists fields,
        resolveOwner (organization_owned tlsscanner) = Ok (VObj fields)
        /\ lookup "starCount" fields = Some (VNum 0)
        /\ (forall k, k <> "starCount" ->
            lookup k fields = lookup k (own_properties tlsscanner))).
Proof.
  split.
  - apply (resolveOwner_returns_repository (user_owned tlsscanner)
             (own_properties tlsscanner) (VNum 0));
      [left; split; reflexivity | reflexivity | reflexivity | reflexivity].
  - apply (resolveOwner_returns_repository (organization_owned tlsscanner)
             (own_properties tlsscanner) (VNum 0));
      [right; split; reflexivity | reflexivity | reflexivity | reflexivity].
Defined.

(** C5.  On an OwnerLookupResult the Owner Resolver fails, and returns no
    repository record, in exactly these cases: both namespaces null, with
    the error of kind NotFound("owner"); one namespace non-null, the other
    null, and the nested repository null or private, with
    NotFound("user-repository") or NotFound("organization-repository"); both
    namespaces non-null, with Unexpected.  In every other case it returns a
    record. *)
Theorem resolveOwner_fails_exactly (data : value) :
  OwnerLookupResult data = true ->
  let user := field "user" data in
  let organization := field "organization" data in
  (is_null user = true -> is_null organization = true ->
   resolveOwner data = Throw (Error "Not found"))
  /\ (is_null user = false -> is_null organization = true ->
      unavailable (field "repository" user) = true ->
      resolveOwner data = Throw (Error "User Repository Not found"))
  /\ (is_null user = true -> is_null organization = false ->
      unavailable (field "repository" organization) = true ->
      resolveOwner data = Throw (Error "Organization Repository Not found"))
  /\ (is_null user = false -> is_null organization = false ->
      resolveOwner data = Throw (Error "Unexpected behavior"))
  /\ ((exists e, resolveOwner data = Throw e)
      <-> owner_failure_kind data <> None).
Proof.
  intros H user organization.
  pose proof (resolveOwner_kind data H) as K.
  unfold owner_failure_kind in *. fold user organization in K |- *.
  repeat split.
  - intros Nu No. now rewrite Nu, No in K.
  - intros Nu No Hun. now rewrite Nu, No, Hun in K.
  - intros Nu No Hun. now rewrite Nu, No, Hun in K.
  - intros Nu No. now rewrite Nu, No in K.
  - intros [e He].
    destruct (is_null user), (is_null organization);
      try discriminate;
      destruct (unavailable _); try discriminate;
      destruct K as [record K]; congruence.
  - intros Hk.
    destruct (is_null user), (is_null organization);
      try (eexists; exact K);
      destruct (unavailable _); try (eexists; exact K); congruence.
Qed.

Lemma resolveOwner_fails_exactly_witness :
  resolveOwner (user_owned (VObj [("repository", tlsscanner);
                                  ("isPrivate", VBool true)]))
  = Throw (Error "User Repository Not found").
Proof.
  apply (resolveOwner_fails_exactly
           (user_owned (VObj [("repository", tlsscanner);
                              ("isPrivate", VBool true)])));
    reflexivity.
Defined.

(** C6.  The commit retrieval fails, without producing an aggregate, in
    exactly these cases: the identity lookup returns a null user, with the
    error "Not found" and no second request; the repository or its ref list
    is absent, with "Repository or refs not found"; the ref list is present
    and empty, with "No commits found".  Otherwise it hands the ref nodes to
    [totalAdditionsAndDeletionsByUser] and returns what that returns, which
    is none of these errors. *)
Theorem fetchRepoCommits_fails_exactly (net : network)
  (username reponame : string) (res_id data_id : value) :
  net [] (id_request username) = Ok res_id ->
  response_data res_id = Ok data_id ->
  is_object data_id = true ->
  (truthy (field "user" data_id) = false ->
   run (fetchRepoCommits username reponame) net
   = (Throw (Error "Not found"), [id_request username]))
  /\ (truthy (field "user" data_id) = true ->
      forall res data,
        net [id_request username]
          (commits_request username reponame
             (field "id" (field "user" data_id))) = Ok res ->
        response_data res = Ok data ->
        is_object data = true ->
        let repository := field "repository" data in
        let refs := field "refs" repository in
        (truthy repository = false \/ truthy refs = false ->
         fst (run (fetchRepoCommits username reponame) net)
         = Throw (Error "Repository or refs not found"))
        /\ (truthy repository = true -> truthy refs = true ->
            field "nodes" refs = VArr [] ->
            fst (run (fetchRepoCommits username reponame) net)
            = Throw (Error "No commits found"))
        /\ (forall b bs,
              truthy repository = true -> truthy refs = true ->
              field "nodes" refs = VArr (b :: bs) ->
              fst (run (fetchRepoCommits username reponame) net)
              = totalAdditionsAndDeletionsByUser (VArr (b :: bs)) username
              /\ forall message,
                   fst (run (fetchRepoCommits username reponame) net)
                   <> Throw (Error message))).
Proof.
  intros Hnet Hbody Hobj. split.
  - intros Hu. unfold run.
    now rewrite (fetchRepoCommits_no_identity net [] username reponame
                   res_id data_id).
  - intros Hu res data Hnet2 Hbody2 Hobj2 repository refs. unfold run.
    split; [| split].
    + intros Habsent.
      now rewrite (fetchRepoCommits_no_refs net [] username reponame
                     res_id data_id Hnet Hbody Hobj res data).
    + intros Tr Tf Hn.
      now rewrite (fetchRepoCommits_nodes net [] username reponame
                     res_id data_id Hnet Hbody Hobj res data Hu Hnet2 Hbody2
                     Hobj2 [] Tr Tf Hn).
    + intros b bs Tr Tf Hn.
      rewrite (fetchRepoCommits_nodes net [] username reponame
                 res_id data_id Hnet Hbody Hobj res data Hu Hnet2 Hbody2
                 Hobj2 (b :: bs) Tr Tf Hn).
      simpl fst. split; [reflexivity |].
      intros message E.
      apply totalAdditionsAndDeletionsByUser_throws in E.
      destruct E; discriminate.
Qed.

Lemma fetchRepoCommits_fails_exactly_witness :
  run (fetchRepoCommits "octo" "tlsscanner") (net_of no_identity)
  = (Throw (Error "Not found"), [id_request "octo"]).
Proof.
  apply (fetchRepoCommits_fails_exactly (net_of no_identity)
           "octo" "tlsscanner" (response (identity_data no_identity))
           (identity_data no_identity));
    reflexivity.
Defined.

(** C7.  Whenever [username] or [reponame] (or both) is the empty string,
    [fetchRepo] fails before any request is issued, with a
    [MissingParamError] that names exactly the missing parameters:
    [username] and [repo] when both are empty, only the absent one
    otherwise. *)
Theorem fetchRepo_missing_parameters (net : network)
  (username reponame : string) :
  username = "" \/ reponame = "" ->
  exists missed,
    run (fetchRepo username reponame) net
    = (Throw (MissingParamError missed urlExample), [])
    /\ (In "username" missed <-> username = "")
    /\ (In "repo" missed <-> reponame = "")
    /\ (forall p, In p missed -> p = "username" \/ p = "repo").
Proof.
  intros H. exists (missing_params username reponame).
  split.
  - apply fetchRepo_missing. unfold missing_params.
    destruct H as [-> | ->]; simpl; [discriminate |].
    destruct (username =? "")%string; discriminate.
  - unfold missing_params.
    destruct (String.eqb_spec username ""), (String.eqb_spec reponame "");
      simpl; repeat split; intros; subst;
      try tauto; try (intuition discriminate); intuition congruence.
Qed.

Lemma fetchRepo_missing_parameters_witness :
  exists missed,
    run (fetchRepo "" "") (net_of end_to_end)
    = (Throw (MissingParamError missed urlExample), [])
    /\ (In "username" missed <-> "" = "")
    /\ (In "repo" missed <-> "" = "")
    /\ (forall p, In p missed -> p = "username" \/ p = "repo").
Proof.
  apply (fetchRepo_missing_parameters (net_of end_to_end) "" "").
  left. reflexivity.
Defined.

(** C8.  The Commit Reconciler is deterministic, whatever order the
    intermediate set is enumerated in: on branch histories of commit records
    (with counts that doubles add exactly), counting over any permutation of
    the deduplicated records gives the totals that
    [totalAdditionsAndDeletionsByUser] returns. *)
Theorem totals_independent_of_set_order
  (branches : list value) (username : string)
  (uniqueCommits order : list value) :
  forallb (BranchHistory CommitRecord) branches = true ->
  safe_counts (all_commits branches) = true ->
  filterDuplicateCommits (VArr branches) = Ok uniqueCommits ->
  Permutation uniqueCommits order ->
  count_unique order username
  = totalAdditionsAndDeletionsByUser (VArr branches) username.
Proof.
  intros H Hs E Hp. unfold totalAdditionsAndDeletionsByUser.
  rewrite E. cbv beta iota delta [rbind].
  rewrite (filterDuplicateCommits_dedup branches (BranchHistory_json _ H)) in E.
  injection E as <-.
  pose proof (unique_records _ H) as Hu.
  pose proof (safe_counts_dedup _ Hs) as Hsu.
  rewrite (count_unique_records _ username Hu Hsu).
  rewrite (count_unique_records _ username
             (forallb_permutation _ _ _ Hp Hu)
             (safe_counts_permutation _ _ Hp Hsu)).
  unfold aggregate_spec.
  now rewrite !(sum_filter_permutation _ _ _ _ Hp).
Qed.

Lemma totals_independent_of_set_order_witness :
  count_unique
    (List.rev [commit "abc123" "testuser" 10 5;
               commit "def456" "TestUser" 15 3;
               commit "abc123" "testuser" 7 5]) "testuser"
  = totalAdditionsAndDeletionsByUser (VArr shared_branches) "testuser".
Proof.
  apply (totals_independent_of_set_order shared_branches "testuser"
           [commit "abc123" "testuser" 10 5; commit "def456" "TestUser" 15 3;
            commit "abc123" "testuser" 7 5]).
  - reflexivity.
  - reflexivity.
  - reflexivity.
  - apply Permutation_rev.
Defined.

(** C9, as the specification states it, fails: a scenario whose failure is
    of kind NotFound("owner") and a scenario whose failure is of kind
    NotFound("identity") give the caller of [fetchRepo] the same outcome. *)
Lemma owner_and_identity_indistinguishable :
  well_typed no_owner = true
  /\ well_typed no_identity = true
  /\ failure_kind "octo" "tlsscanner" no_owner = Some NotFound_owner
  /\ failure_kind "octo" "tlsscanner" no_identity = Some NotFound_identity
  /\ outcome "octo" "tlsscanner" no_owner = Throw (Error "Not found")
  /\ outcome "octo" "tlsscanner" no_identity = Throw (Error "Not found")
  /\ ~ (outcome "octo" "tlsscanner" no_owner
        <> outcome "octo" "tlsscanner" no_identity).
Proof.
  repeat split; try (vm_compute; reflexivity).
  intros H. apply H. vm_compute. reflexivity.
Qed.

(** C9, amended.  In well-typed scenarios the outcomes of two failing calls
    of [fetchRepo] are equal exactly when the failures are of the same kind
    (for MissingParameter: with the same missing parameters), or when one is
    of kind NotFound("owner") and the other of kind NotFound("identity"):
    every other pair of kinds of the taxonomy is told apart by the error. *)
Theorem failure_kinds_distinguishable
  (username1 reponame1 username2 reponame2 : string) (s1 s2 : scenario)
  (k1 k2 : kind) :
  well_typed s1 = true -> well_typed s2 = true ->
  failure_kind username1 reponame1 s1 = Some k1 ->
  failure_kind username2 reponame2 s2 = Some k2 ->
  (outcome username1 reponame1 s1 = outcome username2 reponame2 s2
   <-> k1 = k2
       \/ (k1 = NotFound_owner /\ k2 = NotFound_identity)
       \/ (k1 = NotFound_identity /\ k2 = NotFound_owner)).
Proof.
  intros W1 W2 K1 K2.
  rewrite (fetchRepo_kind s1 username1 reponame1 k1 W1 K1).
  rewrite (fetchRepo_kind s2 username2 reponame2 k2 W2 K2).
  rewrite <- thrown_eq. split; congruence.
Qed.

Lemma failure_kinds_distinguishable_witness :
  outcome "octo" "tlsscanner" no_owner = outcome "octo" "" no_identity
  <-> NotFound_owner = MissingParameter ["repo"]
      \/ (NotFound_owner = NotFound_owner
          /\ MissingParameter ["repo"] = NotFound_identity)
      \/ (NotFound_owner = NotFound_identity
          /\ MissingParameter ["repo"] = NotFound_owner).
Proof.
  apply (failure_kinds_distinguishable "octo" "tlsscanner" "octo" ""
           no_owner no_identity); reflexivity.
Defined.

(** C10.  Owner resolution requires the sibling namespace to be strictly
    [null]: when [user] is there (truthy, as every object is) and
    [organization] is missing from the response, that is [undefined], or
    the other way round, the metadata fetch fails with the error
    "Unexpected behavior" instead of resolving to the namespace that is
    there. *)
Theorem fetchRepoMeta_sibling_undefined (net : network)
  (username reponame : string) (res data : value) :
  net [] (meta_request username reponame) = Ok res ->
  response_data res = Ok data ->
  (truthy (field "user" data) = true /\ field "organization" data = VUndef)
  \/ (truthy (field "organization" data) = true
      /\ field "user" data = VUndef) ->
  run (fetchRepoMeta username reponame) net
  = (Throw (Error "Unexpected behavior"), [meta_request username reponame]).
Proof.
  intros Hnet Hbody Hcase.
  rewrite (fetchRepoMeta_run net username reponame res data Hnet Hbody).
  f_equal.
  assert (Hobj : is_object data = true).
  { destruct data; try reflexivity; destruct Hcase as [[H _] | [H _]];
      discriminate H. }
  apply resolveOwner_unexpected; [exact Hobj | | |];
    destruct Hcase as [[Hu Ho] | [Ho Hu]]; rewrite ?Hu, ?Ho; auto;
    left; now apply truthy_not_null.
Qed.

Lemma fetchRepoMeta_sibling_undefined_witness :
  run (fetchRepoMeta "octo" "tlsscanner")
    (net_of {| meta_data := VObj [("user",
                                   VObj [("repository", tlsscanner)])];
               identity_data := VNull;
               commits_data := VNull |})
  = (Throw (Error "Unexpected behavior"), [meta_request "octo" "tlsscanner"]).
Proof.
  apply (fetchRepoMeta_sibling_undefined _ "octo" "tlsscanner"
           (response (VObj [("user", VObj [("repository", tlsscanner)])]))
           (VObj [("user", VObj [("repository", tlsscanner)])]));
    [reflexivity | reflexivity | left; split; reflexivity].
Defined.

(** * Further facts about the program *)

Module FetchFacts.

Import JSFacts RepoFacts.

(** *** The fetchers as their requests and their pure steps *)

Lemma fetchRepoMeta_steps (net : network) (log : list payload)
  (username reponame : string) :
  fetchRepoMeta username reponame net log
  = (let? res := net log (meta_request username reponame) in
     let? data := response_data res in
     resolveOwner data,
     log ++ [meta_request username reponame]).
Proof.
  unfold fetchRepoMeta, await, retryer, lift, rbind.
  fold (meta_request username reponame).
  destruct (net log (meta_request username reponame)) as [res|e];
    [| reflexivity].
  destruct (response_data res); reflexivity.
Qed.

Lemma fetchRepoCommits_steps (net : network) (log : list payload)
  (username reponame : string) :
  fetchRepoCommits username reponame net log
  = match (let? res_id := net log (id_request username) in
           identity_of_response res_id) with
    | Throw e => (Throw e, log ++ [id_request username])
    | Ok id =>
        (let? res := net (log ++ [id_request username])
                       (commits_request username reponame id) in
         commits_of_response res username,
         (log ++ [id_request username])
         ++ [commits_request username reponame id])
    end.
Proof.
  unfold fetchRepoCommits, identity_of_response, commits_of_response,
    await, retryer, lift, throw, rbind.
  fold (id_request username).
  destruct (net log (id_request username)) as [res_id|e]; [| reflexivity].
  destruct (response_data res_id) as [data_id|e]; [| reflexivity].
  destruct (getprop data_id "user") as [user|e]; [| reflexivity].
  destruct (truthy user); cbv beta iota delta [negb]; [| reflexivity].
  destruct (getprop user "id") as [id|e]; [| reflexivity].
  fold (commits_request username reponame id).
  destruct (net (log ++ [id_request username])
              (commits_request username reponame id)) as [res|e];
    [| reflexivity].
  destruct (response_data res) as [data|e]; [| reflexivity].
  destruct (getprop data "repository") as [repository|e]; [| reflexivity].
  destruct (truthy repository); cbv beta iota delta [negb]; [| reflexivity].
  destruct (getprop repository "refs") as [refs|e]; [| reflexivity].
  destruct (truthy refs); cbv beta iota delta [negb]; [| reflexivity].
  destruct (getprop refs "nodes") as [nodes|e]; [| reflexivity].
  destruct (getprop nodes "length") as [length|e]; [| reflexivity].
  destruct (strict_eq_num length 0); reflexivity.
Qed.

Lemma missing_params_nil (username reponame : string) :
  missing_params username reponame = [] <-> username <> "" /\ reponame <> "".
Proof.
  unfold missing_params.
  destruct (String.eqb_spec username ""), (String.eqb_spec reponame "");
    simpl; split; try discriminate; try tauto; intros [? ?]; congruence.
Qed.

Lemma fetchRepo_steps (net : network) (username reponame : string) :
  username <> "" -> reponame <> "" ->
  run (fetchRepo username reponame) net
  = match fetchRepoMeta username reponame net [] with
    | (Throw e, log) => (Throw e, log)
    | (Ok repoMeta, log) =>
        match fetchRepoCommits username reponame net log with
        | (Throw e, log') => (Throw e, log')
        | (Ok repoCommits, log') =>
            (Ok (VObj (spread (spread [] repoMeta) repoCommits)), log')
        end
    end.
Proof.
  intros Hu Hr. unfold run.
  rewrite fetchRepo_valid by (apply missing_params_nil; auto).
  unfold await, resolve.
  destruct (fetchRepoMeta username reponame net []) as [[m|e] log];
    [| reflexivity].
  destruct (fetchRepoCommits username reponame net log) as [[c|e] log'];
    reflexivity.
Qed.

Lemma response_data_throws (res : value) (e : error) :
  response_data res = Throw e -> e = TypeError.
Proof.
  unfold response_data, rbind.
  destruct (getprop res "data") as [body|e'] eqn:E.
  - apply getprop_throws.
  - intros [= <-]. now apply getprop_throws in E.
Qed.

Lemma is_null_eq (v : value) : is_null v = true -> v = VNull.
Proof. destruct v; simpl; congruence. Qed.

(** *** What a successful owner resolution implies *)

Lemma resolveOwner_object (data record : value) :
  resolveOwner data = Ok record -> is_object data = true.
Proof.
  destruct data as [| | | | |s|l|ps]; try reflexivity;
    unfold resolveOwner; simpl; try discriminate.
Qed.

Lemma resolveOwner_branch (owner totalCount_of : value) (message : string)
  (record : value) :
  truthy owner = true ->
  (let? repository := getprop owner "repository" in
   if negb (truthy repository) then Throw (Error message)
   else
     let? isPrivate := getprop repository "isPrivate" in
     if truthy isPrivate then Throw (Error message)
     else
       let? stargazers := getprop repository "stargazers" in
       let? totalCount := getprop stargazers "totalCount" in
       Ok (VObj (set_prop "starCount" totalCount (spread [] repository))))
  = Ok record ->
  exists totalCount,
    truthy (field "repository" owner) = true
    /\ truthy (field "isPrivate" (field "repository" owner)) = false
    /\ getprop (field "stargazers" (field "repository" owner)) "totalCount"
       = Ok totalCount
    /\ record
       = VObj (set_prop "starCount" totalCount
                 (spread [] (field "repository" owner))).
Proof.
  intros Hown.
  rewrite (getprop_truthy owner "repository" Hown) by discriminate.
  cbv beta iota delta [rbind].
  destruct (truthy (field "repository" owner)) eqn:Tr;
    cbv beta iota delta [negb]; [| discriminate].
  rewrite (getprop_truthy _ "isPrivate" Tr) by discriminate.
  cbv beta iota delta [rbind].
  destruct (truthy (field "isPrivate" (field "repository" owner))) eqn:Tp;
    [discriminate |].
  rewrite (getprop_truthy _ "stargazers" Tr) by discriminate.
  cbv beta iota delta [rbind].
  destruct (getprop (field "stargazers" (field "repository" owner))
              "totalCount") as [totalCount|e] eqn:Es; [| discriminate].
  intros [= <-]. exists totalCount. auto.
Qed.

Lemma resolveOwner_inv (data record : value) :
  resolveOwner data = Ok record ->
  exists owner totalCount,
    (field "organization" data = VNull /\ owner = field "user" data
     \/ field "user" data = VNull /\ owner = field "organization" data)
    /\ truthy owner = true
    /\ truthy (field "repository" owner) = true
    /\ truthy (field "isPrivate" (field "repository" owner)) = false
    /\ getprop (field "stargazers" (field "repository" owner)) "totalCount"
       = Ok totalCount
    /\ record
       = VObj (set_prop "starCount" totalCount
                 (spread [] (field "repository" owner))).
Proof.
  intros H. pose proof (resolveOwner_object _ _ H) as Hobj.
  destruct data as [| | | | | | |ps]; try discriminate. clear Hobj.
  unfold resolveOwner in H. rewrite !getprop_object in H.
  cbv beta iota delta [rbind] in H. unfold js_and in H.
  remember (field "user" (VObj ps)) as u eqn:Eu.
  remember (field "organization" (VObj ps)) as o eqn:Eo.
  clear Eu Eo.
  destruct (truthy u) eqn:Tu, (truthy o) eqn:To;
    cbv beta iota delta [negb andb] in H; try discriminate.
  - (* both there *)
    pose proof (truthy_not_null _ Tu) as Nu.
    pose proof (truthy_not_null _ To) as No.
    rewrite Nu, No in H. simpl in H. discriminate.
  - (* user only *)
    pose proof (truthy_not_null _ Tu) as Nu. rewrite Nu in H.
    destruct (is_null o) eqn:No; simpl truthy in H; cbv iota in H.
    + rewrite Tu in H.
      destruct (resolveOwner_branch u VUndef _ record Tu H)
        as [tc [H1 [H2 [H3 H4]]]].
      exists u, tc. apply is_null_eq in No. subst o. repeat split; auto.
    + simpl in H; rewrite ?Tu, ?To in H; discriminate.
  - (* organization only *)
    pose proof (truthy_not_null _ To) as No. rewrite No in H.
    simpl truthy in H. cbv iota in H.
    destruct (is_null u) eqn:Nu; simpl truthy in H; cbv iota in H.
    + rewrite To in H.
      destruct (resolveOwner_branch o VUndef _ record To H)
        as [tc [H1 [H2 [H3 H4]]]].
      exists o, tc. apply is_null_eq in Nu. subst u. repeat split; auto.
    + simpl in H; rewrite ?Tu, ?To in H; discriminate.
Qed.

(** *** Distinct keys under property update and spread *)

Lemma existsb_set_prop (k k' : string) (v : value)
  (ps : list (string * value)) :
  existsb (fun kv => (k' =? fst kv)%string) (set_prop k v ps)
  = ((k' =? k)%string || existsb (fun kv => (k' =? fst kv)%string) ps).
Proof.
  induction ps as [|[k0 v0] ps IH]; simpl.
  - reflexivity.
  - destruct (String.eqb_spec k k0) as [-> | N]; simpl.
    + destruct (k' =? k0)%string; reflexivity.
    + rewrite IH. destruct (k' =? k0)%string, (k' =? k)%string; reflexivity.
Qed.

Lemma distinct_keys_set_prop (k : string) (v : value)
  (ps : list (string * value)) :
  distinct_keys ps = true -> distinct_keys (set_prop k v ps) = true.
Proof.
  induction ps as [|[k0 v0] ps IH]; simpl; [reflexivity |].
  intros H. apply andb_true_iff in H as [H1 H2].
  destruct (String.eqb_spec k k0) as [-> | N]; simpl.
  - now rewrite H1, H2.
  - rewrite existsb_set_prop, (IH H2).
    destruct (String.eqb_spec k0 k); [congruence |].
    simpl. now rewrite H1.
Qed.

Lemma distinct_keys_fold (ps acc : list (string * value)) :
  distinct_keys acc = true ->
  distinct_keys
    (fold_left (fun a kv => set_prop (fst kv) (snd kv) a) ps acc) = true.
Proof.
  revert acc. induction ps as [|[k v] ps IH]; intros acc H; simpl;
    [exact H |].
  apply IH. now apply distinct_keys_set_prop.
Qed.

Lemma distinct_keys_spread (v : value) : distinct_keys (spread [] v) = true.
Proof. unfold spread. now apply distinct_keys_fold. Qed.

Lemma resolveOwner_distinct (data record : value) :
  resolveOwner data = Ok record ->
  exists fields, record = VObj fields /\ distinct_keys fields = true.
Proof.
  intros H.
  destruct (resolveOwner_inv _ _ H) as [owner [tc [_ [_ [_ [_ [_ ->]]]]]]].
  eexists. split; [reflexivity |].
  apply distinct_keys_set_prop, distinct_keys_spread.
Qed.

(** *** The shape of the commit statistics *)

Lemma totals_shape (branchesCommits : value) (username : string)
  (repoCommits : value) :
  totalAdditionsAndDeletionsByUser branchesCommits username = Ok repoCommits ->
  exists a d,
    repoCommits = VObj [("additionsCount", a); ("deletionsCount", d)].
Proof.
  unfold totalAdditionsAndDeletionsByUser, count_unique, rbind.
  destruct (filterDuplicateCommits branchesCommits); [| discriminate].
  destruct (count_loop _ _ _ _) as [[x y]|]; [| discriminate].
  intros [= <-]. now exists x, y.
Qed.

Lemma commits_of_response_shape (res : value) (username : string)
  (repoCommits : value) :
  commits_of_response res username = Ok repoCommits ->
  exists a d,
    repoCommits = VObj [("additionsCount", a); ("deletionsCount", d)].
Proof.
  unfold commits_of_response, rbind.
  destruct (response_data res); [| discriminate].
  destruct (getprop _ "repository") as [repository|]; [| discriminate].
  destruct (truthy repository); cbv beta iota delta [negb]; [| discriminate].
  destruct (getprop _ "refs") as [refs|]; [| discriminate].
  destruct (truthy refs); cbv beta iota delta [negb]; [| discriminate].
  destruct (getprop _ "nodes") as [nodes|]; [| discriminate].
  destruct (getprop _ "length") as [length|]; [| discriminate].
  destruct (strict_eq_num length 0); [discriminate |].
  apply totals_shape.
Qed.

(** A successful commit retrieval is the result of the reconciler on the
    ref nodes of the response. *)
Lemma commits_of_response_nodes (res : value) (username : string)
  (repoCommits : value) :
  commits_of_response res username = Ok repoCommits ->
  exists nodes,
    refs_nodes res = Ok nodes
    /\ totalAdditionsAndDeletionsByUser nodes username = Ok repoCommits.
Proof.
  unfold commits_of_response, refs_nodes, rbind.
  destruct (response_data res); [| discriminate].
  destruct (getprop _ "repository") as [repository|]; [| discriminate].
  destruct (truthy repository); cbv beta iota delta [negb]; [| discriminate].
  destruct (getprop _ "refs") as [refs|]; [| discriminate].
  destruct (truthy refs); cbv beta iota delta [negb]; [| discriminate].
  destruct (getprop _ "nodes") as [nodes|]; [| discriminate].
  destruct (getprop _ "length") as [length|]; [| discriminate].
  destruct (strict_eq_num length 0); [discriminate |].
  intros H. now exists nodes.
Qed.

(** *** The login enters the count only through its lower-case form *)

Lemma authored_by_lower (c : value) (username username' : string) :
  lower_string username = lower_string username' ->
  authored_by c username = authored_by c username'.
Proof. intros E. unfold authored_by. now rewrite E. Qed.

Lemma count_loop_lower (l : list value) (username username' : string) :
  lower_string username = lower_string username' ->
  forall a d,
    count_loop l username a d = count_loop l username' a d.
Proof.
  intros E. induction l as [|c l IH]; intros a d; simpl; [reflexivity |].
  rewrite (authored_by_lower c username username' E).
  destruct (authored_by c username') as [[|]|e]; simpl; try reflexivity.
  - destruct (getprop c "additions"); simpl; [| reflexivity].
    destruct (js_add a _); simpl; [| reflexivity].
    destruct (getprop c "deletions"); simpl; [| reflexivity].
    destruct (js_add d _); simpl; [| reflexivity].
    apply IH.
  - apply IH.
Qed.

(** *** A record without author *)

Lemma authored_by_no_author (c : value) (username : string) :
  is_nullish (field "author" c) = true ->
  authored_by c username = Throw TypeError.
Proof.
  unfold authored_by, rbind.
  destruct c as [| | | | |s|l|ps]; try reflexivity.
  simpl field. simpl getprop.
  destruct (match lookup "author" ps with Some x => x | None => VUndef end);
    simpl; congruence.
Qed.

Lemma authored_by_type_error (c : value) (username : string) (e : error) :
  authored_by c username = Throw e -> e = TypeError.
Proof.
  unfold authored_by, rbind. intros H.
  destruct (getprop c "author") as [a|e1] eqn:E1;
    [| apply getprop_throws in E1; congruence].
  destruct (getprop a "user") as [u|e2] eqn:E2;
    [| apply getprop_throws in E2; congruence].
  destruct (truthy u); [| discriminate].
  destruct (getprop u "login") as [l|e3] eqn:E3;
    [| apply getprop_throws in E3; congruence].
  destruct l; simpl in H; congruence.
Qed.

Lemma count_loop_type_error (l : list value) (username : string)
  (e : error) :
  forall a d, count_loop l username a d = Throw e -> e = TypeError.
Proof.
  induction l as [|c l IH]; simpl; intros a d; [discriminate |].
  unfold rbind.
  destruct (authored_by c username) as [hit|e1] eqn:E1;
    [| intros [= <-]; now apply (authored_by_type_error c username)].
  destruct hit; [| apply IH].
  destruct (getprop c "additions") as [x|e2] eqn:E2;
    [| intros [= <-]; now apply getprop_throws in E2].
  destruct (js_add a _) as [a'|e3] eqn:E3;
    [| intros [= <-]; now apply js_add_throws in E3].
  destruct (getprop c "deletions") as [y|e4] eqn:E4;
    [| intros [= <-]; now apply getprop_throws in E4].
  destruct (js_add d _) as [d'|e5] eqn:E5;
    [| intros [= <-]; now apply js_add_throws in E5].
  apply IH.
Qed.

Lemma count_loop_stops (l : list value) (username : string) (c : value) :
  In c l -> authored_by c username = Throw TypeError ->
  forall a d, count_loop l username a d = Throw TypeError.
Proof.
  intros Hin Hc. induction l as [|x l IH]; [destruct Hin |].
  intros a d.
  assert (Hthrows : forall a' d', exists e,
             count_loop (x :: l) username a' d' = Throw e).
  { intros a' d'. simpl. unfold rbind.
    destruct Hin as [-> | Hin].
    - rewrite Hc. eauto.
    - destruct (authored_by x username) as [[|]|e];
        [| rewrite (IH Hin); eauto | eauto].
      destruct (getprop x "additions"); [| eauto].
      destruct (js_add a' _); [| eauto].
      destruct (getprop x "deletions"); [| eauto].
      destruct (js_add d' _); [| eauto].
      rewrite (IH Hin). eauto. }
  destruct (Hthrows a d) as [e He]. rewrite He. f_equal.
  now apply (count_loop_type_error _ _ _ _ _ He).
Qed.

(** *** Lists without duplicates *)

Lemma dedup_structural_NoDup_id (l : list value) :
  NoDup l -> dedup_structural l = l.
Proof.
  unfold dedup_structural.
  induction 1 as [|x l Hx Hl IH]; simpl; [reflexivity |].
  rewrite IH. f_equal. apply forallb_filter_id.
  apply forallb_forall. intros y Hy.
  destruct (value_eqb x y) eqn:E; [| reflexivity].
  apply value_eqb_eq in E. subst. contradiction.
Qed.


Lemma sum_of_nonneg (k : string) (l : list value) :
  (forall c, In c l -> 0 <= count_of k c) -> 0 <= sum_of k l.
Proof.
  induction l as [|c l IH]; simpl; intros H; [lia |].
  pose proof (H c (or_introl eq_refl)).
  assert (0 <= sum_of k l) by (apply IH; intros; apply H; now right).
  unfold sum_of in *. lia.
Qed.

Lemma sum_of_filter_le (k : string) (p : value -> bool) (l : list value) :
  (forall c, In c l -> 0 <= count_of k c) ->
  0 <= sum_of k (filter p l) <= sum_of k l.
Proof.
  induction l as [|c l IH]; simpl; intros H; [lia |].
  pose proof (H c (or_introl eq_refl)).
  assert (0 <= sum_of k (filter p l) <= sum_of k l)
    by (apply IH; intros; apply H; now right).
  destruct (p c); simpl; unfold sum_of in *; lia.
Qed.

(** *** One call of [fetchRepo], request by request *)

Lemma fetchRepo_run (net : network) (username reponame : string) :
  username <> "" -> reponame <> "" ->
  let m := meta_request username reponame in
  let i := id_request username in
  run (fetchRepo username reponame) net
  = match net [] m with
    | Throw e => (Throw e, [m])
    | Ok res =>
    match (let? data := response_data res in resolveOwner data) with
    | Throw e => (Throw e, [m])
    | Ok repoMeta =>
    match net [m] i with
    | Throw e => (Throw e, [m; i])
    | Ok res_id =>
    match identity_of_response res_id with
    | Throw e => (Throw e, [m; i])
    | Ok id =>
    match net [m; i] (commits_request username reponame id) with
    | Throw e => (Throw e, [m; i; commits_request username reponame id])
    | Ok res2 =>
    match commits_of_response res2 username with
    | Throw e => (Throw e, [m; i; commits_request username reponame id])
    | Ok repoCommits =>
        (Ok (VObj (spread (spread [] repoMeta) repoCommits)),
         [m; i; commits_request username reponame id])
    end end end end end end.
Proof.
  intros Hu Hr m i.
  rewrite (fetchRepo_steps net _ _ Hu Hr), fetchRepoMeta_steps.
  fold m. unfold rbind at 1.
  destruct (net [] m) as [res|e]; [| reflexivity].
  destruct (rbind (response_data res) _) as [repoMeta|e]; [| reflexivity].
  rewrite fetchRepoCommits_steps. fold i. unfold rbind at 1.
  change ([] ++ [m]) with [m].
  destruct (net [m] i) as [res_id|e]; [| reflexivity].
  destruct (identity_of_response res_id) as [id|e]; [| reflexivity].
  change ([m] ++ [i]) with [m; i]. unfold rbind.
  destruct (net [m; i] (commits_request username reponame id))
    as [res2|e]; [| reflexivity].
  destruct (commits_of_response res2 username); reflexivity.
Qed.

End FetchFacts.

(** * Further properties of the program *)

Import FetchFacts.

(** X1.  With both parameters given, [fetchRepo] issues its requests in a
    fixed order and never more than three: the metadata request, then the
    identity request, then the commit request, which carries the [id] that
    the identity response gave.  A call that stops after one or two requests
    has failed. *)
Theorem fetchRepo_request_order (net : network) (username reponame : string)
  (out : result value) (log : list payload) :
  username <> "" -> reponame <> "" ->
  run (fetchRepo username reponame) net = (out, log) ->
  (log = [meta_request username reponame] /\ exists e, out = Throw e)
  \/ (log = [meta_request username reponame; id_request username]
      /\ exists e, out = Throw e)
  \/ (exists res_id id,
        net [meta_request username reponame] (id_request username) = Ok res_id
        /\ identity_of_response res_id = Ok id
        /\ log = [meta_request username reponame; id_request username;
                  commits_request username reponame id]).
Proof.
  intros Hu Hr H. rewrite (fetchRepo_run net _ _ Hu Hr) in H.
  destruct (net [] _) as [res|e];
    [| left; apply pair_equal_spec in H as [<- <-]; eauto].
  destruct (rbind (response_data res) _) as [repoMeta|e];
    [| left; apply pair_equal_spec in H as [<- <-]; eauto].
  destruct (net [_] _) as [res_id|e] eqn:N;
    [| right; left; apply pair_equal_spec in H as [<- <-]; eauto].
  destruct (identity_of_response res_id) as [id|e] eqn:I;
    [| right; left; apply pair_equal_spec in H as [<- <-]; eauto].
  right. right. exists res_id, id. split; [reflexivity |]. split; [exact I |].
  destruct (net [_; _] _) as [res2|e];
    [destruct (commits_of_response res2 username) |];
    now apply pair_equal_spec in H as [<- <-].
Qed.

Lemma fetchRepo_request_order_witness :
  exists res_id id,
    net_of end_to_end [meta_request "testuser" "tlsscanner"]
      (id_request "testuser") = Ok res_id
    /\ identity_of_response res_id = Ok id
    /\ snd (run (fetchRepo "testuser" "tlsscanner") (net_of end_to_end))
       = [meta_request "testuser" "tlsscanner"; id_request "testuser";
          commits_request "testuser" "tlsscanner" id].
Proof.
  destruct (fetchRepo_request_order (net_of end_to_end) "testuser"
              "tlsscanner"
              (fst (run (fetchRepo "testuser" "tlsscanner")
                      (net_of end_to_end)))
              (snd (run (fetchRepo "testuser" "tlsscanner")
                      (net_of end_to_end))))
    as [[H _] | [[H _] | H]];
    [discriminate | discriminate | vm_compute; reflexivity
    | vm_compute in H; discriminate H | vm_compute in H; discriminate H
    | exact H].
Defined.

(** X2.  [fetchRepo] swallows no rejection of the network: when the last
    request it issued was rejected, the call fails with that very
    rejection. *)
Theorem fetchRepo_rethrows_rejection (net : network)
  (username reponame : string) (out : result value)
  (log before : list payload) (p : payload) (e : error) :
  username <> "" -> reponame <> "" ->
  run (fetchRepo username reponame) net = (out, log) ->
  log = before ++ [p] ->
  net before p = Throw e ->
  out = Throw e.
Proof.
  intros Hu Hr H Hlog Hrej. rewrite (fetchRepo_run net _ _ Hu Hr) in H.
  destruct (net [] _) as [res|e0] eqn:N1.
  2:{ apply pair_equal_spec in H as [<- <-].
      apply (app_inj_tail []) in Hlog as [<- <-]. congruence. }
  destruct (rbind (response_data res) _) as [repoMeta|e1].
  2:{ apply pair_equal_spec in H as [<- <-].
      apply (app_inj_tail []) in Hlog as [<- <-]. congruence. }
  destruct (net [_] _) as [res_id|e2] eqn:N2.
  2:{ apply pair_equal_spec in H as [<- <-].
      apply (app_inj_tail [_]) in Hlog as [<- <-]. congruence. }
  destruct (identity_of_response res_id) as [id|e3].
  2:{ apply pair_equal_spec in H as [<- <-].
      apply (app_inj_tail [_]) in Hlog as [<- <-]. congruence. }
  destruct (net [_; _] _) as [res2|e4] eqn:N3.
  2:{ apply pair_equal_spec in H as [<- <-].
      apply (app_inj_tail [_; _]) in Hlog as [<- <-]. congruence. }
  destruct (commits_of_response res2 username) as [c|e5];
    apply pair_equal_spec in H as [<- <-];
    apply (app_inj_tail [_; _]) in Hlog as [<- <-]; congruence.
Qed.

Lemma fetchRepo_rethrows_rejection_witness :
  fst (run (fetchRepo "octo" "tlsscanner") identity_times_out)
  = Throw (Rejected "timeout").
Proof.
  apply (fetchRepo_rethrows_rejection identity_times_out "octo" "tlsscanner"
           _ [meta_request "octo" "tlsscanner"; id_request "octo"]
           [meta_request "octo" "tlsscanner"] (id_request "octo"));
    [discriminate | discriminate | reflexivity | reflexivity | reflexivity].
Defined.

(** X3.  Whenever [fetchRepo] returns a record, the record is the record
    of the Owner Resolver with the two totals of the Commit Reconciler set on
    it.  The totals are what [totalAdditionsAndDeletionsByUser] returns on
    the ref nodes of the answer to the commit request, which was sent with
    the id of the answer to the identity request.  A field of the repository
    named [additionsCount] or [deletionsCount] is overwritten by the total,
    and every other field of the metadata result, [starCount] among them, is
    kept. *)
Theorem fetchRepo_success_record (net : network) (username reponame : string)
  (record : value) (log : list payload) :
  run (fetchRepo username reponame) net = (Ok record, log) ->
  exists res data metaFields res_id id res_commits nodes a d,
    net [] (meta_request username reponame) = Ok res
    /\ response_data res = Ok data
    /\ resolveOwner data = Ok (VObj metaFields)
    /\ net [meta_request username reponame] (id_request username) = Ok res_id
    /\ identity_of_response res_id = Ok id
    /\ net [meta_request username reponame; id_request username]
         (commits_request username reponame id) = Ok res_commits
    /\ refs_nodes res_commits = Ok nodes
    /\ totalAdditionsAndDeletionsByUser nodes username
       = Ok (VObj [("additionsCount", a); ("deletionsCount", d)])
    /\ record
       = VObj (set_prop "deletionsCount" d
                 (set_prop "additionsCount" a metaFields))
    /\ field "additionsCount" record = a
    /\ field "deletionsCount" record = d
    /\ (forall k, k <> "additionsCount" -> k <> "deletionsCount" ->
        field k record = field k (VObj metaFields)).
Proof.
  intros H.
  destruct (missing_params username reponame) as [|m l] eqn:Em.
  2:{ unfold run in H. rewrite fetchRepo_missing in H by congruence.
      discriminate. }
  apply missing_params_nil in Em as [Hu Hr].
  rewrite (fetchRepo_run net _ _ Hu Hr) in H.
  destruct (net [] _) as [res|] eqn:N1; [| discriminate].
  destruct (response_data res) as [data|] eqn:R1;
    cbv beta iota delta [rbind] in H; [| discriminate].
  destruct (resolveOwner data) as [meta|] eqn:O; [| discriminate].
  destruct (resolveOwner_distinct _ _ O) as [metaFields [-> Hd]].
  destruct (net [_] _) as [res_id|] eqn:N2; [| discriminate].
  destruct (identity_of_response res_id) as [id|] eqn:I; [| discriminate].
  destruct (net [_; _] _) as [res2|] eqn:N3; [| discriminate].
  destruct (commits_of_response res2 username) as [c|] eqn:C;
    [| discriminate].
  destruct (commits_of_response_shape _ _ _ C) as [a [d ->]].
  destruct (commits_of_response_nodes _ _ _ C) as [nodes [Hn Ht]].
  apply pair_equal_spec in H as [H _]. injection H as <-.
  exists res, data, metaFields, res_id, id, res2, nodes, a, d.
  rewrite (spread_distinct metaFields Hd).
  change (spread metaFields (VObj [("additionsCount", a);
                                   ("deletionsCount", d)]))
    with (set_prop "deletionsCount" d
            (set_prop "additionsCount" a metaFields)).
  do 9 (split; [auto; fail |]).
  split; [| split].
  - simpl field. rewrite lookup_set_prop_other by discriminate.
    now rewrite lookup_set_prop_same.
  - simpl field. now rewrite lookup_set_prop_same.
  - intros k Ha Hd'. simpl field.
    now rewrite !lookup_set_prop_other by assumption.
Qed.

Lemma fetchRepo_success_record_witness :
  exists res data metaFields nodes a d,
    net_of end_to_end [] (meta_request "testuser" "tlsscanner") = Ok res
    /\ response_data res = Ok data
    /\ resolveOwner data = Ok (VObj metaFields)
    /\ totalAdditionsAndDeletionsByUser nodes "testuser"
       = Ok (VObj [("additionsCount", a); ("deletionsCount", d)])
    /\ fst (run (fetchRepo "testuser" "tlsscanner") (net_of end_to_end))
       = Ok (VObj (set_prop "deletionsCount" d
                     (set_prop "additionsCount" a metaFields))).
Proof.
  destruct (fetchRepo_success_record (net_of end_to_end) "testuser"
              "tlsscanner"
              (VObj (spread (spread []
                               (VObj (set_prop "starCount" (VNum 0)
                                        (own_properties tlsscanner))))
                       (VObj [("additionsCount", VNum 25);
                              ("deletionsCount", VNum 8)])))
              [meta_request "testuser" "tlsscanner"; id_request "testuser";
               commits_request "testuser" "tlsscanner" (VStr "1")]
              eq_refl)
    as [res [data [metaFields [res_id [id [res_commits [nodes [a [d
        [H1 [H2 [H3 [_ [_ [_ [_ [H8 [H9 _]]]]]]]]]]]]]]]]]].
  exists res, data, metaFields, nodes, a, d.
  repeat split; try assumption.
  rewrite <- H9. reflexivity.
Defined.

(** X4.  The Owner Resolver returns a record exactly when one namespace
    is there, its sibling is strictly [null], and its repository is there,
    not marked private and has a readable star counter; the record is then
    the repository's own properties with [starCount] set to
    [stargazers.totalCount].  This holds for every response, well-formed or
    not. *)
Theorem resolveOwner_success_exactly (data record : value) :
  resolveOwner data = Ok record
  <-> exists owner totalCount,
        (field "organization" data = VNull /\ owner = field "user" data
         \/ field "user" data = VNull /\ owner = field "organization" data)
        /\ truthy owner = true
        /\ truthy (field "repository" owner) = true
        /\ truthy (field "isPrivate" (field "repository" owner)) = false
        /\ getprop (field "stargazers" (field "repository" owner))
             "totalCount" = Ok totalCount
        /\ record
           = VObj (set_prop "starCount" totalCount
                     (spread [] (field "repository" owner))).
Proof.
  split; [apply resolveOwner_inv |].
  intros [owner [tc [Hown [To [Tr [Tp [Hget ->]]]]]]].
  assert (Hobj : exists ps, data = VObj ps).
  { destruct data; try (destruct Hown as [[H _] | [H _]]; discriminate).
    eauto. }
  destruct Hobj as [ps ->].
  unfold resolveOwner. rewrite !getprop_object.
  cbv beta iota delta [rbind]. unfold js_and.
  remember (field "user" (VObj ps)) as u eqn:Eu.
  remember (field "organization" (VObj ps)) as o eqn:Eo.
  clear Eu Eo.
  assert (Hbranch : forall message,
             (let? repository := getprop owner "repository" in
              if negb (truthy repository) then Throw (Error message)
              else
                let? isPrivate := getprop repository "isPrivate" in
                if truthy isPrivate then Throw (Error message)
                else
                  let? stargazers := getprop repository "stargazers" in
                  let? totalCount := getprop stargazers "totalCount" in
                  Ok (VObj (set_prop "starCount" totalCount
                              (spread [] repository))))
             = Ok (VObj (set_prop "starCount" tc
                           (spread [] (field "repository" owner))))).
  { intros message.
    rewrite (getprop_truthy owner "repository" To) by discriminate.
    cbv beta iota delta [rbind]. rewrite Tr. cbv beta iota delta [negb].
    rewrite (getprop_truthy _ "isPrivate" Tr) by discriminate.
    cbv beta iota delta [rbind]. rewrite Tp.
    rewrite (getprop_truthy _ "stargazers" Tr) by discriminate.
    cbv beta iota delta [rbind]. now rewrite Hget. }
  unfold rbind in Hbranch.
  destruct Hown as [[-> ->] | [-> ->]].
  - rewrite To. simpl. rewrite To. apply Hbranch.
  - rewrite To. simpl. rewrite (truthy_not_null _ To). simpl.
    rewrite To. apply Hbranch.
Qed.

Lemma resolveOwner_success_exactly_witness :
  exists owner totalCount,
    (field "organization" (organization_owned tlsscanner) = VNull
     /\ owner = field "user" (organization_owned tlsscanner)
     \/ field "user" (organization_owned tlsscanner) = VNull
        /\ owner = field "organization" (organization_owned tlsscanner))
    /\ truthy owner = true
    /\ truthy (field "repository" owner) = true
    /\ truthy (field "isPrivate" (field "repository" owner)) = false
    /\ getprop (field "stargazers" (field "repository" owner)) "totalCount"
       = Ok totalCount
    /\ VObj (set_prop "starCount" (VNum 0) (own_properties tlsscanner))
       = VObj (set_prop "starCount" totalCount
                 (spread [] (field "repository" owner))).
Proof.
  apply (proj1 (resolveOwner_success_exactly
                  (organization_owned tlsscanner) _)).
  reflexivity.
Defined.

(** X5.  A repository that is there and public but has no [stargazers]
    object makes the Owner Resolver throw a [TypeError], not one of its
    own errors: the star counter is read without a check. *)
Theorem resolveOwner_missing_stargazers (data : value)
  (repo : list (string * value)) :
  (field "organization" data = VNull
   /\ field "repository" (field "user" data) = VObj repo)
  \/ (field "user" data = VNull
      /\ field "repository" (field "organization" data) = VObj repo) ->
  truthy (field "isPrivate" (VObj repo)) = false ->
  is_nullish (field "stargazers" (VObj repo)) = true ->
  resolveOwner data = Throw TypeError.
Proof.
  intros Howner Hpriv Hstars.
  destruct (resolveOwner data) as [record|e] eqn:E.
  - (* a record would need the star counter *)
    destruct (resolveOwner_inv _ _ E)
      as [owner [tc [Hown [_ [_ [_ [Hget _]]]]]]].
    assert (Hrepo : field "repository" owner = VObj repo).
    { destruct Howner as [[Ho Hr] | [Hu Hr]],
        Hown as [[Ho' ->] | [Hu' ->]]; try exact Hr.
      - rewrite Hu' in Hr. discriminate.
      - rewrite Ho' in Hr. discriminate. }
    rewrite Hrepo in Hget.
    destruct (field "stargazers" (VObj repo)); discriminate.
  - f_equal.
    assert (Hobj : exists ps, data = VObj ps).
    { destruct data; try (destruct Howner as [[H _] | [H _]]; discriminate).
      eauto. }
    destruct Hobj as [ps ->].
    unfold resolveOwner in E. rewrite !getprop_object in E.
    cbv beta iota delta [rbind] in E. unfold js_and in E.
    remember (field "user" (VObj ps)) as u eqn:Eu.
    remember (field "organization" (VObj ps)) as o eqn:Eo.
    clear Eu Eo.
    assert (Hbranch : forall owner message,
               field "repository" owner = VObj repo ->
               (let? repository := getprop owner "repository" in
                if negb (truthy repository) then Throw (Error message)
                else
                  let? isPrivate := getprop repository "isPrivate" in
                  if truthy isPrivate then Throw (Error message)
                  else
                    let? stargazers := getprop repository "stargazers" in
                    let? totalCount := getprop stargazers "totalCount" in
                    Ok (VObj (set_prop "starCount" totalCount
                                (spread [] repository))))
               = Throw TypeError).
    { intros owner message Hr.
      assert (Hobj : exists ops, owner = VObj ops)
        by (destruct owner; try discriminate; eauto).
      destruct Hobj as [ops ->]. rewrite getprop_object, Hr.
      cbv beta iota delta [rbind]. simpl truthy. simpl negb. cbv iota.
      rewrite !getprop_object. cbv beta iota delta [rbind].
      rewrite Hpriv.
      destruct (field "stargazers" (VObj repo)); try discriminate;
        reflexivity. }
    destruct Howner as [[-> Hr] | [-> Hr]].
    + assert (Tu : truthy u = true) by (destruct u; try discriminate; auto).
      rewrite Tu in E. simpl in E. rewrite Tu in E.
      pose proof (Hbranch u "User Repository Not found" Hr) as B.
      unfold rbind in B. rewrite B in E. congruence.
    + assert (To : truthy o = true) by (destruct o; try discriminate; auto).
      rewrite To in E. simpl in E. rewrite ?To in E.
      rewrite (truthy_not_null _ To) in E. simpl in E. rewrite ?To in E.
      pose proof (Hbranch o "Organization Repository Not found" Hr) as B.
      unfold rbind in B. rewrite B in E. congruence.
Qed.

Lemma resolveOwner_missing_stargazers_witness :
  resolveOwner (user_owned (VObj [("name", VStr "tlsscanner");
                                  ("isPrivate", VBool false)]))
  = Throw TypeError.
Proof.
  apply (resolveOwner_missing_stargazers _
           [("name", VStr "tlsscanner"); ("isPrivate", VBool false)]);
    [left; split; reflexivity | reflexivity | reflexivity].
Defined.

(** X6.  A metadata response without data (a body whose [data] is [null]
    or missing, or no body at all) makes [fetchRepo] throw a [TypeError]
    after its first request: [res.data.data] is read without a check. *)
Theorem fetchRepo_no_data (net : network) (username reponame : string)
  (res : value) :
  username <> "" -> reponame <> "" ->
  net [] (meta_request username reponame) = Ok res ->
  (forall data, response_data res = Ok data -> is_nullish data = true) ->
  run (fetchRepo username reponame) net
  = (Throw TypeError, [meta_request username reponame]).
Proof.
  intros Hu Hr Hnet Hdata. rewrite (fetchRepo_run net _ _ Hu Hr), Hnet.
  destruct (response_data res) as [data|e] eqn:R;
    cbv beta iota delta [rbind].
  - specialize (Hdata data eq_refl).
    destruct data; try discriminate; reflexivity.
  - now rewrite (response_data_throws _ _ R).
Qed.

Lemma fetchRepo_no_data_witness :
  run (fetchRepo "octo" "tlsscanner")
    (mock_reply (VObj [("data", VNull);
                       ("errors", VArr [VObj [("message", VStr "boom")]])]))
  = (Throw TypeError, [meta_request "octo" "tlsscanner"]).
Proof.
  apply (fetchRepo_no_data _ "octo" "tlsscanner"
           (VObj [("data",
                   VObj [("data", VNull);
                         ("errors",
                          VArr [VObj [("message", VStr "boom")]])]);
                  ("status", VNum 200)]));
    [discriminate | discriminate | reflexivity |].
  intros data [= <-]. reflexivity.
Defined.



(** X8.  The requested login enters the count only through its lower-case
    form: two logins that differ in case alone give the same result on every
    input, also where that result is an error. *)
Theorem totals_depend_on_lowercase_login (branchesCommits : value)
  (username username' : string) :
  lower_string username = lower_string username' ->
  totalAdditionsAndDeletionsByUser branchesCommits username
  = totalAdditionsAndDeletionsByUser branchesCommits username'.
Proof.
  intros E. unfold totalAdditionsAndDeletionsByUser, count_unique.
  destruct (filterDuplicateCommits branchesCommits) as [u|e];
    [| reflexivity].
  cbv beta iota delta [rbind].
  now rewrite (count_loop_lower u username username' E).
Qed.

Lemma totals_depend_on_lowercase_login_witness :
  totalAdditionsAndDeletionsByUser (VArr shared_branches) "TESTUSER"
  = totalAdditionsAndDeletionsByUser (VArr shared_branches) "testUser".
Proof.
  apply totals_depend_on_lowercase_login. reflexivity.
Defined.

(** X9.  A commit record without [author] (the field missing or [null])
    anywhere in the branch histories makes the whole aggregation throw a
    [TypeError]: no total is returned for the other records. *)
Theorem totals_record_without_author (branches : list value)
  (username : string) (c : value) :
  forallb (BranchHistory is_json) branches = true ->
  In c (all_commits branches) ->
  is_nullish (field "author" c) = true ->
  totalAdditionsAndDeletionsByUser (VArr branches) username = Throw TypeError.
Proof.
  intros H Hin Hc. unfold totalAdditionsAndDeletionsByUser, count_unique.
  rewrite (filterDuplicateCommits_dedup _ H).
  cbv beta iota delta [rbind].
  rewrite (count_loop_stops _ username c); [reflexivity | |].
  - now apply dedup_structural_In.
  - now apply authored_by_no_author.
Qed.

Lemma totals_record_without_author_witness :
  totalAdditionsAndDeletionsByUser
    (VArr [branch "main"
             [commit "abc123" "testuser" 10 5;
              VObj [("oid", VStr "def456"); ("additions", VNum 15);
                    ("deletions", VNum 3)]]])
    "testuser"
  = Throw TypeError.
Proof.
  apply (totals_record_without_author _ "testuser"
           (VObj [("oid", VStr "def456"); ("additions", VNum 15);
                  ("deletions", VNum 3)]));
    [reflexivity | simpl; tauto | reflexivity].
Defined.

(** X10.  When no record of the branch histories is by the requested login,
    the reconciler returns the totals 0 and 0; it does not fail. *)
Theorem totals_zero_without_match (branches : list value)
  (username : string) :
  forallb (BranchHistory CommitRecord) branches = true ->
  (forall c, In c (all_commits branches) -> by_login username c = false) ->
  totalAdditionsAndDeletionsByUser (VArr branches) username
  = Ok (VObj [("additionsCount", VNum 0); ("deletionsCount", VNum 0)]).
Proof.
  intros H Hnone. unfold totalAdditionsAndDeletionsByUser, count_unique.
  rewrite (filterDuplicateCommits_dedup _ (BranchHistory_json _ H)).
  cbv beta iota delta [rbind].
  rewrite (count_loop_no_match _ username (unique_records _ H));
    [reflexivity |].
  intros c Hc. now apply Hnone, dedup_structural_In.
Qed.

Lemma totals_zero_without_match_witness :
  totalAdditionsAndDeletionsByUser (VArr shared_branches) "diekgbbtt"
  = Ok (VObj [("additionsCount", VNum 0); ("deletionsCount", VNum 0)]).
Proof.
  apply totals_zero_without_match; [reflexivity |].
  intros c Hc. simpl in Hc.
  repeat (destruct Hc as [<- | Hc]; [reflexivity |]). destruct Hc.
Defined.

(** X11.  With counts that are not negative (and such that doubles add them
    exactly), the totals of a login lie between 0 and the totals over all
    deduplicated records of the repository. *)
Theorem totals_bounds (branches : list value) (username : string) :
  forallb (BranchHistory CommitRecord) branches = true ->
  safe_counts (all_commits branches) = true ->
  (forall c, In c (all_commits branches) ->
             0 <= count_of "additions" c /\ 0 <= count_of "deletions" c) ->
  exists a d,
    totalAdditionsAndDeletionsByUser (VArr branches) username
    = Ok (VObj [("additionsCount", VNum a); ("deletionsCount", VNum d)])
    /\ 0 <= a <= sum_of "additions" (dedup_structural (all_commits branches))
    /\ 0 <= d <= sum_of "deletions" (dedup_structural (all_commits branches)).
Proof.
  intros H Hs Hpos. unfold totalAdditionsAndDeletionsByUser.
  rewrite (filterDuplicateCommits_dedup _ (BranchHistory_json _ H)).
  cbv beta iota delta [rbind].
  rewrite (count_unique_records _ username (unique_records _ H)
             (safe_counts_dedup _ Hs)).
  unfold aggregate_spec. do 2 eexists. split; [reflexivity |].
  split; apply sum_of_filter_le; intros c Hc;
    apply (proj1 (dedup_structural_In _ _)) in Hc;
    destruct (Hpos c Hc); assumption.
Qed.

Lemma totals_bounds_witness :
  exists a d,
    totalAdditionsAndDeletionsByUser (VArr shared_branches) "testuser"
    = Ok (VObj [("additionsCount", VNum a); ("deletionsCount", VNum d)])
    /\ 0 <= a <= sum_of "additions"
                   (dedup_structural (all_commits shared_branches))
    /\ 0 <= d <= sum_of "deletions"
                   (dedup_structural (all_commits shared_branches)).
Proof.
  apply totals_bounds; [reflexivity | reflexivity |].
  intros c Hc. simpl in Hc.
  repeat (destruct Hc as [<- | Hc]; [vm_compute; split; discriminate |]).
  destruct Hc.
Defined.

(** X12.  On branch histories without a repeated record
    [filterDuplicateCommits] drops and changes nothing: it returns the
    records of all branches in their order, each as it was before the round
    trip through its JSON text. *)
Theorem filterDuplicateCommits_without_duplicates (branches : list value) :
  forallb (BranchHistory is_json) branches = true ->
  NoDup (all_commits branches) ->
  filterDuplicateCommits (VArr branches) = Ok (all_commits branches).
Proof.
  intros H Hnd. rewrite (filterDuplicateCommits_dedup _ H).
  now rewrite (dedup_structural_NoDup_id _ Hnd).
Qed.

Lemma filterDuplicateCommits_without_duplicates_witness :
  filterDuplicateCommits
    (VArr [branch "main" [commit "abc123" "testuser" 10 5];
           branch "dev" [commit "def456" "testuser" 15 3]])
  = Ok [commit "abc123" "testuser" 10 5; commit "def456" "testuser" 15 3].
Proof.
  apply (filterDuplicateCommits_without_duplicates
           [branch "main" [commit "abc123" "testuser" 10 5];
            branch "dev" [commit "def456" "testuser" 15 3]]);
    [reflexivity |].
  repeat constructor; simpl; intuition discriminate.
Defined.

(** X13.  Deduplication is idempotent: a branch history that lists what
    [filterDuplicateCommits] returned is returned unchanged. *)
Theorem filterDuplicateCommits_idempotent (branches : list value)
  (uniqueCommits : list value) (b : value) :
  forallb (BranchHistory is_json) branches = true ->
  filterDuplicateCommits (VArr branches) = Ok uniqueCommits ->
  branch_commits b = Some uniqueCommits ->
  filterDuplicateCommits (VArr [b]) = Ok uniqueCommits.
Proof.
  intros H E Hb.
  rewrite (filterDuplicateCommits_dedup _ H) in E. injection E as <-.
  assert (Hj : forallb (BranchHistory is_json) [b] = true).
  { simpl. unfold BranchHistory. rewrite Hb, andb_true_r.
    apply forallb_dedup.
    now destruct (histories_of_branches _ _ H) as [hs [_ [_ E3]]]. }
  rewrite (filterDuplicateCommits_dedup _ Hj).
  unfold all_commits. simpl flat_map. rewrite Hb, app_nil_r.
  f_equal. apply dedup_structural_NoDup_id, dedup_structural_NoDup.
Qed.

Lemma filterDuplicateCommits_idempotent_witness :
  filterDuplicateCommits
    (VArr [branch "all" [commit "abc123" "testuser" 10 5;
                         commit "def456" "TestUser" 15 3;
                         commit "abc123" "testuser" 7 5]])
  = Ok [commit "abc123" "testuser" 10 5; commit "def456" "TestUser" 15 3;
        commit "abc123" "testuser" 7 5].
Proof.
  apply (filterDuplicateCommits_idempotent shared_branches);
    [reflexivity | vm_compute; reflexivity | reflexivity].
Defined.

(** X14.  [fetchRepoCommits] returns statistics only when the login
    resolved to a user, the commit response holds a repository with a ref
    list, and that list is a non-empty array which the reconciler accepted;
    both requests have then been issued, the second with the [id] of the
    user. *)
Theorem fetchRepoCommits_success_sound (net : network)
  (username reponame : string) (repoCommits : value) (log : list payload) :
  run (fetchRepoCommits username reponame) net = (Ok repoCommits, log) ->
  exists res_id data_id res data nodes,
    net [] (id_request username) = Ok res_id
    /\ response_data res_id = Ok data_id
    /\ truthy (field "user" data_id) = true
    /\ net [id_request username]
         (commits_request username reponame
            (field "id" (field "user" data_id))) = Ok res
    /\ response_data res = Ok data
    /\ field "nodes" (field "refs" (field "repository" data)) = VArr nodes
    /\ nodes <> []
    /\ totalAdditionsAndDeletionsByUser (VArr nodes) username
       = Ok repoCommits
    /\ log = [id_request username;
              commits_request username reponame
                (field "id" (field "user" data_id))].
Proof.
  unfold run. rewrite fetchRepoCommits_steps. intros H.
  destruct (net [] (id_request username)) as [res_id|] eqn:N1;
    cbv beta iota delta [rbind] in H; [| discriminate].
  destruct (identity_of_response res_id) as [id|] eqn:I; [| discriminate].
  change ([] ++ [id_request username]) with [id_request username] in H.
  destruct (net [id_request username] _) as [res|] eqn:N2; [| discriminate].
  apply pair_equal_spec in H as [C <-].
  (* the identity *)
  unfold identity_of_response, rbind in I.
  destruct (response_data res_id) as [data_id|] eqn:R1; [| discriminate].
  destruct (getprop data_id "user") as [user|] eqn:G1; [| discriminate].
  destruct (truthy user) eqn:Tu; cbv beta iota delta [negb] in I;
    [| discriminate].
  assert (Hu : user = field "user" data_id).
  { destruct data_id; simpl in G1; try discriminate;
      try (injection G1 as <-; discriminate Tu).
    now injection G1 as <-. }
  rewrite (getprop_truthy _ "id" Tu) in I by discriminate.
  injection I as <-. subst user.
  (* the commits *)
  unfold commits_of_response, rbind in C.
  destruct (response_data res) as [data|] eqn:R2; [| discriminate].
  destruct (getprop data "repository") as [repository|] eqn:G2;
    [| discriminate].
  destruct (truthy repository) eqn:Tr; cbv beta iota delta [negb] in C;
    [| discriminate].
  assert (Hr : repository = field "repository" data).
  { destruct data; simpl in G2; try discriminate;
      try (injection G2 as <-; discriminate Tr).
    now injection G2 as <-. }
  subst repository.
  rewrite (getprop_truthy _ "refs" Tr) in C by discriminate.
  destruct (truthy (field "refs" (field "repository" data))) eqn:Tf;
    cbv beta iota delta [negb] in C; [| discriminate].
  rewrite (getprop_truthy _ "nodes" Tf) in C by discriminate.
  destruct (getprop _ "length") as [len|] eqn:G3; [| discriminate].
  destruct (strict_eq_num len 0) eqn:Z; [discriminate |].
  destruct (field "nodes" (field "refs" (field "repository" data)))
    as [| | | | | |nodes|] eqn:En;
    try (unfold totalAdditionsAndDeletionsByUser in C; simpl in C;
         discriminate C).
  exists res_id, data_id, res, data, nodes.
  repeat split; auto.
  intros ->. simpl in G3. injection G3 as <-. discriminate Z.
Qed.

Lemma fetchRepoCommits_success_sound_witness :
  exists res_id data_id res data nodes,
    net_of end_to_end [] (id_request "testuser") = Ok res_id
    /\ response_data res_id = Ok data_id
    /\ truthy (field "user" data_id) = true
    /\ net_of end_to_end [id_request "testuser"]
         (commits_request "testuser" "tlsscanner"
            (field "id" (field "user" data_id))) = Ok res
    /\ response_data res = Ok data
    /\ field "nodes" (field "refs" (field "repository" data)) = VArr nodes
    /\ nodes <> []
    /\ totalAdditionsAndDeletionsByUser (VArr nodes) "testuser"
       = Ok (VObj [("additionsCount", VNum 25); ("deletionsCount", VNum 8)])
    /\ [id_request "testuser";
        commits_request "testuser" "tlsscanner" (VStr "1")]
       = [id_request "testuser";
          commits_request "testuser" "tlsscanner"
            (field "id" (field "user" data_id))].
Proof.
  apply (fetchRepoCommits_success_sound (net_of end_to_end) "testuser"
           "tlsscanner"). reflexivity.
Defined.

(** X15.  A ref list without [nodes] (the field missing or [null]) makes
    [fetchRepoCommits] throw a [TypeError] after its second request, not
    the error "No commits found": the length of [nodes] is read without a
    check. *)
Theorem fetchRepoCommits_refs_without_nodes (net : network)
  (username reponame : string) (res_id id res data : value) :
  net [] (id_request username) = Ok res_id ->
  identity_of_response res_id = Ok id ->
  net [id_request username] (commits_request username reponame id) = Ok res ->
  response_data res = Ok data ->
  truthy (field "refs" (field "repository" data)) = true ->
  is_nullish (field "nodes" (field "refs" (field "repository" data))) = true ->
  run (fetchRepoCommits username reponame) net
  = (Throw TypeError,
     [id_request username; commits_request username reponame id]).
Proof.
  intros N1 I N2 R Tf Hn. unfold run.
  rewrite fetchRepoCommits_steps, N1. cbv beta iota delta [rbind].
  rewrite I. change ([] ++ [id_request username]) with [id_request username].
  rewrite N2. f_equal.
  unfold commits_of_response. rewrite R. cbv beta iota delta [rbind].
  assert (Tr : truthy (field "repository" data) = true).
  { destruct (field "repository" data); try discriminate; reflexivity. }
  assert (Hobj : exists ps, data = VObj ps).
  { destruct data; try discriminate; eauto. }
  destruct Hobj as [ps ->]. rewrite getprop_object.
  cbv beta iota delta [rbind]. rewrite Tr. cbv beta iota delta [negb].
  rewrite (getprop_truthy _ "refs" Tr) by discriminate.
  cbv beta iota delta [rbind]. rewrite Tf. cbv beta iota delta [negb].
  rewrite (getprop_truthy _ "nodes" Tf) by discriminate.
  cbv beta iota delta [rbind].
  destruct (field "nodes" (field "refs" (field "repository" (VObj ps))));
    try discriminate; reflexivity.
Qed.

Lemma fetchRepoCommits_refs_without_nodes_witness :
  run (fetchRepoCommits "testuser" "tlsscanner")
    (net_of {| meta_data := user_owned tlsscanner;
               identity_data := VObj [("user", VObj [("id", VStr "1")])];
               commits_data :=
                 VObj [("repository",
                        VObj [("refs", VObj [("totalCount", VNum 0)])])] |})
  = (Throw TypeError,
     [id_request "testuser";
      commits_request "testuser" "tlsscanner" (VStr "1")]).
Proof.
  apply (fetchRepoCommits_refs_without_nodes _ "testuser" "tlsscanner"
           (response (VObj [("user", VObj [("id", VStr "1")])]))
           (VStr "1")
           (response
              (VObj [("repository",
                      VObj [("refs", VObj [("totalCount", VNum 0)])])]))
           (VObj [("repository",
                   VObj [("refs", VObj [("totalCount", VNum 0)])])]));
    reflexivity.
Defined.

(** X16.  Against a network that answers every request with the same
    response, as the mock of the test suite does, [fetchRepo] returns no
    record when the response has the shape of a metadata response (no
    [repository] at its top level): once the owner is resolved, the call
    fails with "Not found" where [user] is [null] (an organization owns the
    repository) and with "Repository or refs not found" otherwise. *)
Theorem fetchRepo_same_response_fails (net : network)
  (username reponame : string) (res data repoMeta : value) :
  username <> "" -> reponame <> "" ->
  (forall log p, net log p = Ok res) ->
  response_data res = Ok data ->
  truthy (field "repository" data) = false ->
  resolveOwner data = Ok repoMeta ->
  fst (run (fetchRepo username reponame) net)
  = Throw (Error (if truthy (field "user" data)
                  then "Repository or refs not found"
                  else "Not found")).
Proof.
  intros Hu Hr Hnet R Trepo O.
  rewrite (fetchRepo_run net _ _ Hu Hr), !Hnet, R.
  cbv beta iota delta [rbind]. rewrite O.
  pose proof (resolveOwner_object _ _ O) as Hobj.
  destruct data as [| | | | | | |ps]; try discriminate.
  unfold identity_of_response. rewrite R. cbv beta iota delta [rbind].
  rewrite getprop_object.
  destruct (truthy (field "user" (VObj ps))) eqn:Tu;
    cbv beta iota delta [negb]; [| reflexivity].
  rewrite (getprop_truthy _ "id" Tu) by discriminate.
  rewrite Hnet. unfold commits_of_response. rewrite R.
  cbv beta iota delta [rbind]. rewrite getprop_object, Trepo. reflexivity.
Qed.

Lemma fetchRepo_same_response_fails_witness :
  fst (run (fetchRepo "diekgbbtt" "tlsscanner") (mock_reply data_user))
  = Throw (Error "Repository or refs not found")
  /\ fst (run (fetchRepo "diekgbbtt" "tlsscanner") (mock_reply data_org))
     = Throw (Error "Not found").
Proof.
  split.
  - apply (fetchRepo_same_response_fails (mock_reply data_user)
             "diekgbbtt" "tlsscanner"
             (VObj [("data", data_user); ("status", VNum 200)])
             (user_owned data_repo_repository)
             (VObj (set_prop "starCount" (VNum 0)
                      (own_properties data_repo_repository))));
      [discriminate | discriminate | reflexivity | reflexivity
      | reflexivity | reflexivity].
  - apply (fetchRepo_same_response_fails (mock_reply data_org)
             "diekgbbtt" "tlsscanner"
             (VObj [("data", data_org); ("status", VNum 200)])
             (organization_owned data_repo_repository)
             (VObj (set_prop "starCount" (VNum 0)
                      (own_properties data_repo_repository))));
      [discriminate | discriminate | reflexivity | reflexivity
      | reflexivity | reflexivity].
Defined.

(** X17.  A failure of the Owner Resolver ends [fetchRepo] after its first
    request, with the resolver's error: for a repository that is not found
    or private no identity and no commit request is issued. *)
Theorem fetchRepo_stops_after_owner_failure (net : network)
  (username reponame : string) (res data : value) (e : error) :
  username <> "" -> reponame <> "" ->
  net [] (meta_request username reponame) = Ok res ->
  response_data res = Ok data ->
  resolveOwner data = Throw e ->
  run (fetchRepo username reponame) net
  = (Throw e, [meta_request username reponame]).
Proof.
  intros Hu Hr Hnet R O.
  rewrite (fetchRepo_run net _ _ Hu Hr), Hnet, R.
  cbv beta iota delta [rbind]. now rewrite O.
Qed.

Lemma fetchRepo_stops_after_owner_failure_witness :
  run (fetchRepo "diekgbbtt" "tlsscanner")
    (mock_reply
       (VObj [("data",
               user_owned (VObj [("repository", data_repo_repository);
                                 ("isPrivate", VBool true)]))]))
  = (Throw (Error "User Repository Not found"),
     [meta_request "diekgbbtt" "tlsscanner"]).
Proof.
  apply (fetchRepo_stops_after_owner_failure _ "diekgbbtt" "tlsscanner"
           (VObj [("data",
                   VObj [("data",
                          user_owned
                            (VObj [("repository", data_repo_repository);
                                   ("isPrivate", VBool true)]))]);
                  ("status", VNum 200)])
           (user_owned (VObj [("repository", data_repo_repository);
                              ("isPrivate", VBool true)])));
    [discriminate | discriminate | reflexivity | reflexivity | reflexivity].
Defined.



(** Beyond [safe_counts] the totals are not the sums: 2^53 + 1 is no
    double. *)
Example totals_round_above_safe_counts :
  totalAdditionsAndDeletionsByUser
    (VArr [branch "main" [commit "abc123" "testuser" (2 ^ 53) 0;
                          commit "def456" "testuser" 1 0]])
    "testuser"
  = Ok (VObj [("additionsCount", VNum (2 ^ 53)); ("deletionsCount", VNum 0)]).
Proof. vm_compute. reflexivity. Qed.
